(** * Engineering-Impact-Dashboard backend (src/backend/main.py): a shallow
    embedding of the PR analytics pipeline and its properties.

    Python values are modelled by their JSON shapes: a dictionary key read
    with [.get] is a [field] (absent, JSON null, or a value); exceptions
    raised by the code are the [Raise] case of a small error monad;
    Python sets are stdpp [gset]s; dictionaries whose insertion order
    matters are association lists; the process-wide CACHE is a [gmap]. *)

From Stdlib Require Import ZArith QArith String Ascii List Bool.
From Stdlib Require Import Sorting.Sorted Sorting.Permutation Lia Lqa.
From stdpp Require Import base gmap sets list strings sorting.

Import ListNotations.
Open Scope string_scope.

(* ------------------------------------------------------------------ *)
(** ** Exceptions and the error monad *)

(** The Python exceptions the modelled code can raise. [TransportError]
    stands for any httpx exception of [session.get] (connect error,
    timeout, ...). *)
Inductive exn : Type :=
| TypeError
| ValueError
| KeyError
| OverflowError
| TransportError.

Inductive result (A : Type) : Type :=
| Ok (a : A)
| Raise (e : exn).
Arguments Ok {A} a.
Arguments Raise {A} e.

Definition rbind {A B} (m : result A) (k : A -> result B) : result B :=
  match m with
  | Ok a => k a
  | Raise e => Raise e
  end.

Notation "'let!' x := m 'in' k" := (rbind m (fun x => k))
  (at level 200, x name, m at level 100, k at level 200).

Fixpoint mapM {A B} (f : A -> result B) (l : list A) : result (list B) :=
  match l with
  | [] => Ok []
  | x :: l' => let! y := f x in let! ys := mapM f l' in Ok (y :: ys)
  end.

(* ------------------------------------------------------------------ *)
(** ** JSON fields *)

(** A dictionary key as [d.get(k)] sees it: missing, present with JSON
    [null], or present with a value. *)
Inductive field (A : Type) : Type :=
| Absent
| Null
| Val (a : A).
Arguments Absent {A}.
Arguments Null {A}.
Arguments Val {A} a.

(** [d.get(k)]: [None] for a missing key and for [null]. *)
Definition get {A} (f : field A) : option A :=
  match f with Val a => Some a | _ => None end.

(** [d.get(k, default)] for an integer-valued key, followed by integer
    arithmetic: a present [null] is Python's [None], which makes the
    following [+] or comparison raise [TypeError]. *)
Definition get_int (f : field Z) (default : Z) : result Z :=
  match f with
  | Absent => Ok default
  | Null => Raise TypeError
  | Val z => Ok z
  end.

(** Truthiness of an optional string ([if not created_at]). *)
Definition str_truthy (o : option string) : bool :=
  match o with Some s => negb (String.eqb s "") | None => false end.

(* ------------------------------------------------------------------ *)
(** ** GitHub resource shapes *)

(** A [user] object of the API. [u_other_keys] counts its keys besides
    [login]; a dictionary is truthy iff it has a key. *)
Record user_obj : Type := {
  u_login : field string;
  u_other_keys : nat
}.

Definition user_truthy (u : user_obj) : bool :=
  match u_login u with
  | Absent => Nat.ltb 0 (u_other_keys u)
  | _ => true
  end.

(** One entry of [GET /pulls/{n}/reviews]. *)
Record review : Type := {
  r_user : field user_obj;
  r_state : field string;
  r_submitted_at : field string
}.

(** One entry of [GET /repos/{o}/{r}/pulls]. Keys the code reads with
    [pr["..."]] (and that the API always sends) are plain fields. *)
Record raw_pr : Type := {
  pr_number : Z;
  pr_user_login : string;
  pr_state : string;
  pr_created_at : field string;
  pr_merged_at : field string;
  pr_title : field string;
  pr_html_url : field string;
  pr_base_full_name : string;
  pr_requested_reviewers : field (list user_obj)
}.

(** The body of [GET /pulls/{n}]: only the size keys are read. *)
Record pr_details : Type := {
  d_additions : field Z;
  d_deletions : field Z;
  d_changed_files : field Z
}.

(** The empty dictionary [{}]. *)
Definition empty_details : pr_details :=
  {| d_additions := Absent; d_deletions := Absent; d_changed_files := Absent |}.

(* ------------------------------------------------------------------ *)
(** ** Reviewer metrics (calculate_reviewer_metrics, lines 135-145) *)

Record reviewer_stats : Type := {
  reviewers_requested : Z;
  reviewers_commented : Z;
  approvals : Z
}.

(** [r.get("user")] is truthy. *)
Definition review_has_user (r : review) : bool :=
  match r_user r with Val u => user_truthy u | _ => false end.

(** [r.get("user", {}).get("login")], evaluated only when the user is a
    truthy dictionary. *)
Definition review_login (r : review) : option string :=
  match r_user r with Val u => get (u_login u) | _ => None end.

(** [{r.get("user", {}).get("login") for r in reviews if r.get("user")}] *)
Definition commented_set (reviews : list review) : gset (option string) :=
  list_to_set (map review_login (List.filter (fun r => review_has_user r) reviews)).

(** [r.get("state") == "APPROVED"] *)
Definition is_approved (r : review) : bool :=
  match r_state r with Val s => String.eqb s "APPROVED" | _ => false end.

Definition calculate_reviewer_metrics (pr : raw_pr) (reviews : list review)
  : result reviewer_stats :=
  let! requested :=
    match pr_requested_reviewers pr with
    | Absent => Ok 0%Z
    | Null => Raise TypeError            (* len(None) *)
    | Val l => Ok (Z.of_nat (length l))
    end in
  Ok {| reviewers_requested := requested;
        reviewers_commented := Z.of_nat (size (commented_set reviews));
        approvals := Z.of_nat (length (List.filter (fun r => is_approved r) reviews)) |}.

(** [pr["reviewer_logins"]] in process_single_pr (lines 449-455): the set of
    truthy logins of reviews with a truthy user. *)
Definition reviewer_login_set (reviews : list review) : gset string :=
  list_to_set
    (omap (fun r => if review_has_user r && str_truthy (review_login r)
                    then review_login r else None) reviews).

(* ------------------------------------------------------------------ *)
(** ** Strings *)

(** [s.replace("Z", "+00:00")] *)
Fixpoint replace_Z (s : string) : string :=
  match s with
  | EmptyString => EmptyString
  | String c s' =>
      if Ascii.eqb c "Z"%char then "+00:00" ++ replace_Z s' else String c (replace_Z s')
  end.

(** [c in s] for a one-character [c]. *)
Fixpoint contains_char (c : ascii) (s : string) : bool :=
  match s with
  | EmptyString => false
  | String d s' => Ascii.eqb c d || contains_char c s'
  end.

(** [s.split(c)] for a one-character separator: always at least one piece. *)
Fixpoint split_on (c : ascii) (s : string) : list string :=
  match s with
  | EmptyString => [""]
  | String d s' =>
      match split_on c s' with
      | [] => [String d ""]
      | p :: ps => if Ascii.eqb c d then "" :: p :: ps else String d p :: ps
      end
  end.

(* ------------------------------------------------------------------ *)
(** ** Datetimes *)

(** A [datetime]: whether it carries a UTC offset, and microseconds since
    1970-01-01T00:00 (UTC for an aware datetime, wall clock otherwise). *)
Record datetime : Type := {
  dt_aware : bool;
  dt_us : Z
}.

Definition US_PER_DAY : Z := 86400000000.
Definition US_PER_HOUR : positive := 3600000000.
(** [datetime.min] and [datetime.max] (years 1 and 9999). *)
Definition DATETIME_MIN_US : Z := -62135596800000000.
Definition DATETIME_MAX_US : Z := 253402300799999999.
(** [timedelta] accepts at most 999999999 days in magnitude. *)
Definition TIMEDELTA_MAX_DAYS : Z := 999999999.

(** [now - timedelta(days=days)] for an aware [now]. *)
Definition sub_days (now : datetime) (days : Z) : result datetime :=
  if Z.ltb TIMEDELTA_MAX_DAYS (Z.abs days) then Raise OverflowError else
  let us := (dt_us now - days * US_PER_DAY)%Z in
  if Z.ltb us DATETIME_MIN_US || Z.ltb DATETIME_MAX_US us then Raise OverflowError
  else Ok {| dt_aware := dt_aware now; dt_us := us |}.

(** [a >= b]: ordering a naive against an aware datetime raises. *)
Definition dt_ge (a b : datetime) : result bool :=
  if Bool.eqb (dt_aware a) (dt_aware b) then Ok (Z.leb (dt_us b) (dt_us a))
  else Raise TypeError.

(** [(a - b).total_seconds() / 3600.0] *)
Definition dt_diff_hours (a b : datetime) : result Q :=
  if Bool.eqb (dt_aware a) (dt_aware b) then Ok ((dt_us a - dt_us b)%Z # US_PER_HOUR)
  else Raise TypeError.

Section Pipeline.

(** [datetime.fromisoformat]: [None] where it raises. *)
Variable fromisoformat : string -> option datetime.

(** [datetime.fromisoformat(s.replace("Z", "+00:00"))] *)
Definition parse_ts (s : string) : option datetime := fromisoformat (replace_Z s).

(* ------------------------------------------------------------------ *)
(** ** Window filter (filter_prs_by_date, lines 148-164) *)

Fixpoint filter_from (cutoff : datetime) (prs : list raw_pr) : result (list raw_pr) :=
  match prs with
  | [] => Ok []
  | pr :: rest =>
      let created_at := get (pr_created_at pr) in
      if negb (str_truthy created_at) then filter_from cutoff rest else
      match (created_at ≫= parse_ts) with
      | None => filter_from cutoff rest
      | Some pr_date =>
          let! keep := dt_ge pr_date cutoff in
          if keep then let! r := filter_from cutoff rest in Ok (pr :: r)
          else Ok []
      end
  end.

(** [now] is [datetime.now(timezone.utc)]. *)
Definition filter_prs_by_date (now : datetime) (prs : list raw_pr) (days : Z)
  : result (list raw_pr) :=
  let! cutoff_date := sub_days now days in
  filter_from cutoff_date prs.

(* ------------------------------------------------------------------ *)
(** ** Timing metrics (lines 167-222) *)

Definition calculate_cycle_time (pr : raw_pr) : result (option Q) :=
  let created_at := get (pr_created_at pr) in
  let merged_at := get (pr_merged_at pr) in
  if negb (str_truthy created_at) || negb (str_truthy merged_at) then Ok None else
  match (created_at ≫= parse_ts), (merged_at ≫= parse_ts) with
  | Some created, Some merged => let! h := dt_diff_hours merged created in Ok (Some h)
  | _, _ => Ok None
  end.

Definition calculate_time_to_merge (pr : raw_pr) : result (option Q) :=
  calculate_cycle_time pr.

(** The keys [fromisoformat(r["submitted_at"].replace(...))] of all
    reviews, [None] where one of them raises. *)
Fixpoint review_keys (reviews : list review) : option (list datetime) :=
  match reviews with
  | [] => Some []
  | r :: rs =>
      match r_submitted_at r with
      | Val s =>
          match parse_ts s, review_keys rs with
          | Some d, Some ds => Some (d :: ds)
          | _, _ => None
          end
      | _ => None
      end
  end.

(** [min(reviews, key=...)]: the first review with the least key; the
    comparisons raise when naive and aware keys are mixed. *)
Fixpoint min_key (d : datetime) (ds : list datetime) : datetime :=
  match ds with
  | [] => d
  | d' :: ds' => if Z.ltb (dt_us d') (dt_us d) then min_key d' ds' else min_key d ds'
  end.

Definition earliest_submission (reviews : list review) : option datetime :=
  match review_keys reviews with
  | Some (d :: ds) =>
      if forallb (fun d' => Bool.eqb (dt_aware d') (dt_aware d)) ds
      then Some (min_key d ds) else None
  | _ => None
  end.

(** [pr_created_at] is [pr["created_at"]]: [None] stands for JSON null. *)
Definition calculate_review_time_from_reviews (pr_created_at : option string)
    (reviews : list review) : result (option Q) :=
  match reviews with
  | [] => Ok None
  | _ =>
      match (pr_created_at ≫= parse_ts) with
      | None => Ok None
      | Some created =>
          match earliest_submission reviews with
          | None => Ok None
          | Some submitted => let! h := dt_diff_hours submitted created in Ok (Some h)
          end
      end
  end.


(* ------------------------------------------------------------------ *)
(** ** Fetch helpers (lines 59-116) *)

(** What [await session.get(url)] produces: the call raises, or a response
    with a status code and a body that [response.json()] parses to a value
    ([None] where it raises). *)
Inductive http_outcome (A : Type) : Type :=
| Transport_failure
| Response (status : Z) (body : option A).
#[global] Arguments Transport_failure {A}.
#[global] Arguments Response {A} status body.

(** A parsed PR-list body: a JSON array of PRs, or any other JSON value
    (typically an error payload such as [{"message": ...}]). *)
Inductive pulls_body : Type :=
| JList (prs : list raw_pr)
| JNotList.

Definition fetch_github_prs (o : http_outcome pulls_body) : result (list raw_pr) :=
  match o with
  | Transport_failure => Raise TransportError   (* session.get is outside the try *)
  | Response _ None => Ok []
  | Response _ (Some JNotList) => Ok []
  | Response _ (Some (JList data)) => Ok data
  end.

Definition fetch_pr_reviews (o : http_outcome (list review)) : result (list review) :=
  match o with
  | Transport_failure => Raise TransportError
  | Response status body =>
      if negb (Z.eqb status 200) then Ok []
      else match body with Some l => Ok l | None => Ok [] end
  end.

Definition fetch_pr_details (o : http_outcome pr_details) : result pr_details :=
  match o with
  | Transport_failure => Raise TransportError
  | Response status body =>
      if negb (Z.eqb status 200) then Ok empty_details
      else match body with Some d => Ok d | None => Ok empty_details end
  end.

(* ------------------------------------------------------------------ *)
(** ** Size (extract_pr_size, lines 122-132) *)

Record pr_size : Type := {
  s_additions : Z;
  s_deletions : Z;
  s_changed_files : Z;
  s_total_changes : Z
}.

(** A [null] size key is [None] in Python; the [TypeError] it causes (in
    the addition here, or in [detect_bottlenecks] for [changed_files]) is
    raised here. *)
Definition extract_pr_size (d : pr_details) : result pr_size :=
  let! additions := get_int (d_additions d) 0 in
  let! deletions := get_int (d_deletions d) 0 in
  let! changed_files := get_int (d_changed_files d) 0 in
  Ok {| s_additions := additions; s_deletions := deletions;
        s_changed_files := changed_files; s_total_changes := additions + deletions |}.

(* ------------------------------------------------------------------ *)
(** ** Enriched PR, bottlenecks and high impact (lines 251-289) *)

(** The PR dictionary after process_single_pr has updated it. *)
Record enriched : Type := {
  e_pr : raw_pr;
  e_additions : Z;
  e_deletions : Z;
  e_changed_files : Z;
  e_total_changes : Z;
  e_reviewers_requested : Z;
  e_reviewers_commented : Z;
  e_approvals : Z;
  e_reviewer_logins : list string;
  e_cycle_time_hours : option Q;
  e_review_time_hours : option Q;
  e_time_to_merge_hours : option Q;
  e_bottlenecks : list string;
  e_high_impact_reasons : list string
}.

(** [a > b] on floats. *)
Definition Qgt_bool (a b : Q) : bool := negb (Qle_bool a b).

Definition when (b : bool) (s : string) : list string := if b then [s] else [].

Definition detect_bottlenecks (pr : enriched) : list string :=
  when (Z.ltb 500 (e_total_changes pr)) "Very large PR (>500 changes)" ++
  when (Z.ltb 20 (e_changed_files pr)) "Touches many files" ++
  match e_review_time_hours pr with
  | None => ["No review started"]
  | Some review_hours => when (Qgt_bool review_hours 24) "First review took >24h"
  end ++
  match e_cycle_time_hours pr with
  | None => ["PR still open / not merged"]
  | Some cycle_hours => when (Qgt_bool cycle_hours 72) "PR took >72h to merge"
  end ++
  when (Z.eqb (e_reviewers_commented pr) 0) "No reviewers involved" ++
  when (Z.eqb (e_approvals pr) 0) "No approvals".

Definition identify_high_impact_pr (pr : enriched) : list string :=
  when (Z.ltb 500 (e_total_changes pr)) "Large PR (>500 LOC changed)" ++
  when (Z.ltb 20 (e_changed_files pr)) "Touches many files" ++
  when (Z.eqb (e_reviewers_commented pr) 0) "No reviewers commented" ++
  when (Z.eqb (e_approvals pr) 0) "No approvals" ++
  (* [if cycle and cycle > 72]: a float is truthy iff non-zero *)
  match e_cycle_time_hours pr with
  | Some cycle => when (negb (Qeq_bool cycle 0) && Qgt_bool cycle 72) "Open >72h"
  | None => []
  end ++
  when (match e_review_time_hours pr with None => true | Some _ => false end)
    "No review started".

Definition set_bottlenecks (e : enriched) (b : list string) : enriched :=
  {| e_pr := e_pr e; e_additions := e_additions e; e_deletions := e_deletions e;
     e_changed_files := e_changed_files e; e_total_changes := e_total_changes e;
     e_reviewers_requested := e_reviewers_requested e;
     e_reviewers_commented := e_reviewers_commented e; e_approvals := e_approvals e;
     e_reviewer_logins := e_reviewer_logins e; e_cycle_time_hours := e_cycle_time_hours e;
     e_review_time_hours := e_review_time_hours e;
     e_time_to_merge_hours := e_time_to_merge_hours e;
     e_bottlenecks := b; e_high_impact_reasons := e_high_impact_reasons e |}.

Definition set_high_impact (e : enriched) (h : list string) : enriched :=
  {| e_pr := e_pr e; e_additions := e_additions e; e_deletions := e_deletions e;
     e_changed_files := e_changed_files e; e_total_changes := e_total_changes e;
     e_reviewers_requested := e_reviewers_requested e;
     e_reviewers_commented := e_reviewers_commented e; e_approvals := e_approvals e;
     e_reviewer_logins := e_reviewer_logins e; e_cycle_time_hours := e_cycle_time_hours e;
     e_review_time_hours := e_review_time_hours e;
     e_time_to_merge_hours := e_time_to_merge_hours e;
     e_bottlenecks := e_bottlenecks e; e_high_impact_reasons := h |}.

(* ------------------------------------------------------------------ *)
(** ** Per-PR processing (process_single_pr, lines 431-468) *)

Definition process_single_pr (pr : raw_pr) (details_out : http_outcome pr_details)
    (reviews_out : http_outcome (list review)) : result enriched :=
  let! details := fetch_pr_details details_out in
  let! reviews := fetch_pr_reviews reviews_out in
  let! size := extract_pr_size details in
  let! stats := calculate_reviewer_metrics pr reviews in
  let logins := elements (reviewer_login_set reviews) in
  let! cycle := calculate_cycle_time pr in
  let! created_at :=
    match pr_created_at pr with
    | Absent => Raise KeyError
    | Null => Ok None
    | Val s => Ok (Some s)
    end in
  let! review_hours := calculate_review_time_from_reviews created_at reviews in
  let! ttm := calculate_time_to_merge pr in
  let pr0 := {| e_pr := pr;
        e_additions := s_additions size;
        e_deletions := s_deletions size;
        e_changed_files := s_changed_files size;
        e_total_changes := s_total_changes size;
        e_reviewers_requested := reviewers_requested stats;
        e_reviewers_commented := reviewers_commented stats;
        e_approvals := approvals stats;
        e_reviewer_logins := logins;
        e_cycle_time_hours := cycle;
        e_review_time_hours := review_hours;
        e_time_to_merge_hours := ttm;
        e_bottlenecks := [];
        e_high_impact_reasons := [] |} in
  (* pr["bottlenecks"] = detect_bottlenecks(pr) *)
  let pr1 := set_bottlenecks pr0 (detect_bottlenecks pr0) in
  (* pr["high_impact_reasons"] = identify_high_impact_pr(pr) *)
  Ok (set_high_impact pr1 (identify_high_impact_pr pr1)).

(* ------------------------------------------------------------------ *)
(** ** Median (median_or_none, lines 49-53) *)

(** [sorted] on floats: stable insertion sort. *)
Fixpoint insert_q (x : Q) (l : list Q) : list Q :=
  match l with
  | [] => [x]
  | y :: l' => if Qle_bool x y then x :: l else y :: insert_q x l'
  end.

Definition sort_q (l : list Q) : list Q := fold_right insert_q [] l.

(** [statistics.median] of a non-empty list. *)
Definition median (values : list Q) : Q :=
  let data := sort_q values in
  let n := length data in
  if Nat.odd n then nth (n / 2) data 0%Q
  else let i := (n / 2)%nat in
       let lo := nth (i - 1) data 0%Q in
       let hi := nth i data 0%Q in
       ((lo + hi) / 2)%Q.

Definition median_or_none (values : list (option Q)) : option Q :=
  match omap (fun v => v) values with
  | [] => None
  | vs => Some (median vs)
  end.

(* ------------------------------------------------------------------ *)
(** ** Impact score (compute_impact_score, lines 225-229) *)

(** [changes * (reviewers + approvals + 1)] on an enriched PR, where the
    three keys are present. *)
Definition compute_impact_score (pr : enriched) : Z :=
  (e_total_changes pr * (e_reviewers_commented pr + e_approvals pr + 1))%Z.

(* ------------------------------------------------------------------ *)
(** ** Burnout (detect_burnout, lines 232-248) *)

(** A dictionary in insertion order, [d[k] = d.get(k, 0) + v]. *)
Fixpoint dict_add (k : string) (v : Z) (d : list (string * Z)) : list (string * Z) :=
  match d with
  | [] => [(k, v)]
  | (k', v') :: d' =>
      if String.eqb k k' then (k', (v' + v)%Z) :: d' else (k', v') :: dict_add k v d'
  end.

(** [sorted(d.items(), key=lambda x: x[1], reverse=True)]: stable, so
    equal values keep their insertion order. *)
Fixpoint insert_desc (x : string * Z) (l : list (string * Z)) : list (string * Z) :=
  match l with
  | [] => [x]
  | y :: l' => if Z.ltb (snd y) (snd x) then x :: l else y :: insert_desc x l'
  end.

Definition sort_desc (l : list (string * Z)) : list (string * Z) :=
  fold_left (fun acc x => insert_desc x acc) l [].

Definition sum_values (d : list (string * Z)) : Z := fold_right (fun kv s => (snd kv + s)%Z) 0%Z d.

(** [max(1, int(len(...) * 0.10))]; [int(n * 0.10)] equals [n / 10] for
    every list length that fits in memory. *)
Definition top_count (n : nat) : nat := Nat.max 1 (n / 10).

(** [work / total_work >= 0.40], in exact arithmetic. *)
Definition share_ge_40 (work total : Z) : bool := Qle_bool (2 # 5) (inject_Z work / inject_Z total).

Definition detect_burnout (work_by_contributor : list (string * Z)) : list string :=
  match work_by_contributor with
  | [] => []
  | _ =>
      let sorted_contributors := sort_desc work_by_contributor in
      let total_work := sum_values work_by_contributor in
      if Z.eqb total_work 0 then [] else
      let top_contributors := firstn (top_count (length sorted_contributors)) sorted_contributors in
      map fst (List.filter (fun uw => share_ge_40 (snd uw) total_work) top_contributors)
  end.

(* ------------------------------------------------------------------ *)
(** ** Aggregation (compute_aggregations, lines 295-425) *)

Record active_row : Type := {
  a_repo : string; a_number : Z; a_title : option string; a_author : string;
  a_created_at : option string
}.

Record timeline_row : Type := {
  t_timestamp : option string; t_type : string; t_user : string; t_repo : string
}.

Record bottleneck_row : Type := {
  b_title : option string; b_author : string; b_repo : string; b_url : option string;
  b_bottlenecks : list string
}.

Record workload_row : Type := {
  w_opened_prs : Z; w_reviewed_prs : Z; w_authored_loc : Z; w_reviewed_loc : Z
}.

(** The local variables of the loop. *)
Record agg_state : Type := {
  st_prs_merged_by_contributor : list (string * Z);
  st_reviews_by_contributor : list (string * Z);
  st_contributions_per_repo : list (string * Z);
  st_high_impact_per_repo : list (string * Z);
  st_review_times : list Q;
  st_merge_times : list Q;
  st_bottleneck_prs : list bottleneck_row;
  st_authored_loc : list (string * Z);
  st_reviewed_loc : list (string * Z);
  st_opened_prs : list (string * Z);
  st_reviewed_prs : list (string * Z);
  st_active_prs : list active_row;
  st_activity_timeline : list timeline_row
}.

Definition agg_init : agg_state :=
  {| st_prs_merged_by_contributor := []; st_reviews_by_contributor := [];
     st_contributions_per_repo := []; st_high_impact_per_repo := [];
     st_review_times := []; st_merge_times := []; st_bottleneck_prs := [];
     st_authored_loc := []; st_reviewed_loc := []; st_opened_prs := [];
     st_reviewed_prs := []; st_active_prs := []; st_activity_timeline := [] |}.

(** [pr[k]] on an optional string key. *)
Definition index_str (f : field string) : result (option string) :=
  match f with Absent => Raise KeyError | Null => Ok None | Val s => Ok (Some s) end.

(** [pr.get(k, default)] on an optional string key. *)
Definition get_str_or (f : field string) (default : string) : option string :=
  match f with Absent => Some default | Null => None | Val s => Some s end.

(** The inner loop over [reviewer_logins], as three dictionaries. *)
Definition add_reviews (total : Z) (logins : list string)
    (d : list (string * Z) * list (string * Z) * list (string * Z))
  : list (string * Z) * list (string * Z) * list (string * Z) :=
  fold_left (fun '(rbc, rp, rl) reviewer =>
               if String.eqb reviewer "" then (rbc, rp, rl)
               else (dict_add reviewer 1 rbc, dict_add reviewer 1 rp, dict_add reviewer total rl))
            logins d.

Definition agg_step (st : agg_state) (pr : enriched) : result agg_state :=
  let p := e_pr pr in
  let repo_full := pr_base_full_name p in
  let author := pr_user_login p in
  let state := pr_state p in
  let merged_at := get (pr_merged_at p) in
  let! active :=
    if negb (String.eqb state "closed") && (match merged_at with None => true | _ => false end)
    then let! title := index_str (pr_title p) in
         let! created := index_str (pr_created_at p) in
         Ok (st_active_prs st ++
             [{| a_repo := repo_full; a_number := pr_number p; a_title := title;
                 a_author := author; a_created_at := created |}])%list
    else Ok (st_active_prs st) in
  let! ts := index_str (pr_created_at p) in
  let '(rbc, rp, rl) :=
    add_reviews (e_total_changes pr) (e_reviewer_logins pr)
      (st_reviews_by_contributor st, st_reviewed_prs st, st_reviewed_loc st) in
  Ok {| st_contributions_per_repo := dict_add repo_full 1 (st_contributions_per_repo st);
        st_active_prs := active;
        st_activity_timeline := st_activity_timeline st ++
          [{| t_timestamp := ts; t_type := "pr_opened"; t_user := author; t_repo := repo_full |}];
        st_opened_prs := dict_add author 1 (st_opened_prs st);
        st_authored_loc := dict_add author (e_additions pr) (st_authored_loc st);
        st_merge_times := st_merge_times st ++
          match e_cycle_time_hours pr with Some h => [h] | None => [] end;
        st_review_times := st_review_times st ++
          match e_review_time_hours pr with Some h => [h] | None => [] end;
        st_prs_merged_by_contributor :=
          if str_truthy merged_at then dict_add author 1 (st_prs_merged_by_contributor st)
          else st_prs_merged_by_contributor st;
        st_reviews_by_contributor := rbc;
        st_reviewed_prs := rp;
        st_reviewed_loc := rl;
        st_high_impact_per_repo :=
          match e_high_impact_reasons pr with
          | [] => st_high_impact_per_repo st
          | _ => dict_add repo_full 1 (st_high_impact_per_repo st)
          end;
        st_bottleneck_prs :=
          match e_bottlenecks pr with
          | [] => st_bottleneck_prs st
          | bs => st_bottleneck_prs st ++
                  [{| b_title := get_str_or (pr_title p) "N/A"; b_author := author;
                      b_repo := repo_full; b_url := get_str_or (pr_html_url p) "";
                      b_bottlenecks := bs |}]
          end |}.

Fixpoint agg_loop (st : agg_state) (prs : list enriched) : result agg_state :=
  match prs with
  | [] => Ok st
  | pr :: rest => let! st' := agg_step st pr in agg_loop st' rest
  end.

Record summary : Type := {
  prs_merged_by_contributor : list (string * Z);
  reviews_by_contributor : list (string * Z);
  high_impact_per_repo : list (string * Z);
  median_review_time_hours : option Q;
  median_merge_time_hours : option Q;
  bottleneck_prs : list bottleneck_row;
  contributions_per_repo : list (string * Z);
  active_prs : list active_row;
  activity_timeline : list timeline_row;
  per_contributor : gmap string workload_row;
  burnout_risk : list string
}.

Definition lookup0 (d : list (string * Z)) (k : string) : Z :=
  match find (fun kv => String.eqb (fst kv) k) d with Some (_, v) => v | None => 0%Z end.

Definition keys_set (d : list (string * Z)) : gset string := list_to_set (map fst d).

Definition compute_aggregations (all_prs : list enriched) : result summary :=
  let! st := agg_loop agg_init all_prs in
  let burnout := detect_burnout (st_authored_loc st) in
  let all_users := keys_set (st_opened_prs st) ∪ keys_set (st_reviewed_prs st) ∪
                   keys_set (st_authored_loc st) ∪ keys_set (st_reviewed_loc st) in
  let rows := set_to_map (fun user =>
                (user, {| w_opened_prs := lookup0 (st_opened_prs st) user;
                          w_reviewed_prs := lookup0 (st_reviewed_prs st) user;
                          w_authored_loc := lookup0 (st_authored_loc st) user;
                          w_reviewed_loc := lookup0 (st_reviewed_loc st) user |})) all_users in
  Ok {| prs_merged_by_contributor := st_prs_merged_by_contributor st;
        reviews_by_contributor := st_reviews_by_contributor st;
        high_impact_per_repo := st_high_impact_per_repo st;
        median_review_time_hours := median_or_none (map Some (st_review_times st));
        median_merge_time_hours := median_or_none (map Some (st_merge_times st));
        bottleneck_prs := st_bottleneck_prs st;
        contributions_per_repo := st_contributions_per_repo st;
        active_prs := st_active_prs st;
        activity_timeline := st_activity_timeline st;
        per_contributor := rows;
        burnout_risk := burnout |}.

(* ------------------------------------------------------------------ *)
(** ** The request (get_insights, lines 474-521) *)

(** The code-hosting API as seen by one request: the outcome of each GET. *)
Record world : Type := {
  w_pulls : string -> string -> http_outcome pulls_body;
  w_details : string -> string -> Z -> http_outcome pr_details;
  w_reviews : string -> string -> Z -> http_outcome (list review)
}.

Definition MAX_PRS_PER_REPO : nat := 30.

(** [asyncio.gather] over the PRs of one repository: the results in PR
    order; an exception of one task propagates. *)
Definition process_repo (w : world) (owner repo_name : string) (recent_prs : list raw_pr)
  : result (list enriched) :=
  mapM (fun pr => process_single_pr pr (w_details w owner repo_name (pr_number pr))
                                       (w_reviews w owner repo_name (pr_number pr)))
       recent_prs.

(** The [for repo in request.repos] loop: the enriched PRs of all repos. *)
Fixpoint collect_prs (w : world) (now : datetime) (days : Z) (repos : list string)
  : result (list enriched) :=
  match repos with
  | [] => Ok []
  | repo :: rest =>
      if negb (contains_char "/" repo) then collect_prs w now days rest else
      match split_on "/" repo with
      | [owner; repo_name] =>
          let! prs := fetch_github_prs (w_pulls w owner repo_name) in
          let! recent_prs := filter_prs_by_date now prs days in
          let recent_prs := firstn MAX_PRS_PER_REPO recent_prs in
          let! processed := process_repo w owner repo_name recent_prs in
          let! more := collect_prs w now days rest in
          Ok (processed ++ more)%list
      | _ => Raise ValueError      (* owner, repo_name = repo.split("/") *)
      end
  end.

(** The pipeline behind a cache miss. *)
Definition compute_insights (w : world) (now : datetime) (repos : list string) (days : Z)
  : result summary :=
  let! all_prs := collect_prs w now days repos in
  compute_aggregations all_prs.

End Pipeline.

(* ------------------------------------------------------------------ *)
(** ** Cache key (make_cache_key, lines 41-43) *)

(** Python's [<=] on strings: lexicographic on code points. *)
Fixpoint str_leb (s t : string) : bool :=
  match s, t with
  | EmptyString, _ => true
  | String _ _, EmptyString => false
  | String a s', String b t' =>
      N.ltb (N_of_ascii a) (N_of_ascii b) ||
      (N.eqb (N_of_ascii a) (N_of_ascii b) && str_leb s' t')
  end.

Definition str_le (s t : string) : Prop := str_leb s t = true.

#[global] Instance str_le_dec : RelDecision str_le.
Proof. intros s t. unfold str_le. apply _. Defined.

(** [sorted(repos)]: the sorted list is unique, so any stable sort is
    Python's. *)
Definition sort_repos (repos : list string) : list string := merge_sort str_le repos.

Definition cache_key : Type := (list string * Z)%type.

Definition make_cache_key (repos : list string) (days : Z) : cache_key :=
  (sort_repos repos, days).

(* ------------------------------------------------------------------ *)
(** ** Cached entry point *)

Definition CACHE_TTL_SECONDS : Q := 600.

Record cache_entry : Type := {
  c_time : Q;
  c_data : summary
}.

(** [get_insights]: [clock] is [time()], [now] is
    [datetime.now(timezone.utc)], both read during this request; returns
    the new CACHE and the response (or the exception it raises). *)
Definition get_insights (fromisoformat : string -> option datetime) (w : world)
    (clock : Q) (now : datetime) (cache : gmap cache_key cache_entry)
    (repos : list string) (days : Z) : gmap cache_key cache_entry * result summary :=
  let key := make_cache_key repos days in
  let fresh := match cache !! key with
               | Some entry => if Qlt_le_dec (clock - c_time entry) CACHE_TTL_SECONDS
                               then Some entry else None
               | None => None
               end in
  match fresh with
  | Some entry => (cache, Ok (c_data entry))
  | None =>
      match compute_insights fromisoformat w now repos days with
      | Ok result => (<[key := {| c_time := clock; c_data := result |}]> cache, Ok result)
      | Raise e => (cache, Raise e)
      end
  end.

(* ------------------------------------------------------------------ *)
(** ** A concrete [fromisoformat] for the timestamps GitHub sends *)

(** [datetime.fromisoformat] restricted to [YYYY-MM-DDTHH:MM:SS] with an
    optional [+HH:MM] / [-HH:MM] offset; [None] elsewhere. Used to run the
    pipeline on concrete timestamps. *)
Definition digit (c : ascii) : option Z :=
  let n := N_of_ascii c in
  if N.leb 48 n && N.leb n 57 then Some (Z.of_N n - 48)%Z else None.

Fixpoint read_digits (k : nat) (s : string) (acc : Z) : option (Z * string) :=
  match k with
  | O => Some (acc, s)
  | S k' =>
      match s with
      | String c s' => d ← digit c; read_digits k' s' (acc * 10 + d)%Z
      | EmptyString => None
      end
  end.

Definition expect (c : ascii) (s : string) : option string :=
  match s with String d s' => if Ascii.eqb c d then Some s' else None | _ => None end.

Definition leap_year (y : Z) : bool :=
  (Z.eqb (y mod 4) 0 && negb (Z.eqb (y mod 100) 0)) || Z.eqb (y mod 400) 0%Z.

Definition days_in_month (y m : Z) : Z :=
  if Z.eqb m 2 then (if leap_year y then 29 else 28)
  else if existsb (Z.eqb m) [4; 6; 9; 11]%Z then 30 else 31.

(** Days from 1970-01-01 to the civil date [y-m-d]. *)
Definition days_from_civil (y m d : Z) : Z :=
  let y' := (if Z.leb m 2 then y - 1 else y)%Z in
  let era := (y' / 400)%Z in
  let yoe := (y' - era * 400)%Z in
  let mp := ((m + 9) mod 12)%Z in
  let doy := ((153 * mp + 2) / 5 + d - 1)%Z in
  let doe := (yoe * 365 + yoe / 4 - yoe / 100 + doy)%Z in
  (era * 146097 + doe - 719468)%Z.

Definition read_offset (s : string) : option (option Z) :=
  match s with
  | EmptyString => Some None
  | String sign s1 =>
      let sg := if Ascii.eqb sign "+"%char then Some 1%Z
                else if Ascii.eqb sign "-"%char then Some (-1)%Z else None in
      g ← sg;
      '(oh, s2) ← read_digits 2 s1 0;
      s3 ← expect ":" s2;
      '(om, s4) ← read_digits 2 s3 0;
      if String.eqb s4 "" && Z.ltb oh 24 && Z.ltb om 60
      then Some (Some (g * (oh * 3600 + om * 60))%Z) else None
  end.

Definition iso_subset (s : string) : option datetime :=
  '(y, s) ← read_digits 4 s 0; s ← expect "-" s;
  '(mo, s) ← read_digits 2 s 0; s ← expect "-" s;
  '(d, s) ← read_digits 2 s 0; s ← expect "T" s;
  '(h, s) ← read_digits 2 s 0; s ← expect ":" s;
  '(mi, s) ← read_digits 2 s 0; s ← expect ":" s;
  '(se, s) ← read_digits 2 s 0;
  off ← read_offset s;
  if Z.leb 1 y && Z.leb 1 mo && Z.leb mo 12 && Z.leb 1 d && Z.leb d (days_in_month y mo)
     && Z.ltb h 24 && Z.ltb mi 60 && Z.ltb se 60
  then
    let local := (days_from_civil y mo d * 86400 + h * 3600 + mi * 60 + se)%Z in
    match off with
    | None => Some {| dt_aware := false; dt_us := (local * 1000000)%Z |}
    | Some o => Some {| dt_aware := true; dt_us := ((local - o) * 1000000)%Z |}
    end
  else None.

(* ------------------------------------------------------------------ *)
(** ** Reference predicates from the spec *)

(** The reasons the spec lists for a PR, each evaluated on its own field. *)
Definition bottleneck_holds (pr : enriched) (s : string) : Prop :=
  (s = "Very large PR (>500 changes)" /\ (500 < e_total_changes pr)%Z) \/
  (s = "Touches many files" /\ (20 < e_changed_files pr)%Z) \/
  ((s = "No review started" /\ e_review_time_hours pr = None) \/
   (s = "First review took >24h" /\ exists h, e_review_time_hours pr = Some h /\ (24 < h)%Q)) \/
  ((s = "PR still open / not merged" /\ e_cycle_time_hours pr = None) \/
   (s = "PR took >72h to merge" /\ exists h, e_cycle_time_hours pr = Some h /\ (72 < h)%Q)) \/
  (s = "No reviewers involved" /\ e_reviewers_commented pr = 0%Z) \/
  (s = "No approvals" /\ e_approvals pr = 0%Z).

(** The creation timestamp as the filter sees it: [None] when it is
    missing, null, empty or unparseable. *)
Definition created_ts (fi : string -> option datetime) (pr : raw_pr) : option datetime :=
  let c := get (pr_created_at pr) in
  if str_truthy c then c ≫= parse_ts fi else None.

Fixpoint take_while {A} (p : A -> bool) (l : list A) : list A :=
  match l with
  | [] => []
  | x :: l' => if p x then x :: take_while p l' else []
  end.

(** The spec's window: the longest prefix in which every PR with a
    timestamp is at or after the cutoff, without the PRs that have none. *)
Definition window_prefix (fi : string -> option datetime) (cutoff : datetime)
    (prs : list raw_pr) : list raw_pr :=
  List.filter (fun pr => match created_ts fi pr with Some _ => true | None => false end)
    (take_while (fun pr => match created_ts fi pr with
                           | None => true
                           | Some d => Z.leb (dt_us cutoff) (dt_us d)
                           end) prs).

Definition loc_desc (a b : string * Z) : Prop := (snd b <= snd a)%Z.

(** The [details] of a PR whose detail fetch did not succeed: a
    non-200 status or a body that does not parse. *)
Definition details_failed (o : http_outcome pr_details) : Prop :=
  exists status body, o = Response status body /\ (status <> 200%Z \/ body = None).

(** A detail body reporting a PR of size zero. *)
Definition zero_details : pr_details :=
  {| d_additions := Val 0%Z; d_deletions := Val 0%Z; d_changed_files := Val 0%Z |}.

#[global] Instance field_eq_dec {A} `{EqDecision A} : EqDecision (field A).
Proof. solve_decision. Defined.

(** The number of review entries whose state is the string [s]. *)
Definition count_state (s : string) (reviews : list review) : nat :=
  length (List.filter (fun r => bool_decide (r_state r = Val s)) reviews).

(** The distinct non-null reviewer logins over all review entries. *)
Definition distinct_logins (reviews : list review) : gset string :=
  list_to_set (omap review_login reviews).

(** Two APIs that answer alike, except that some detail requests that
    fail in [w] report a PR of size zero in [w']. *)
Definition details_zeroed (w w' : world) : Prop :=
  (forall o r, w_pulls w o r = w_pulls w' o r) /\
  (forall o r n, w_reviews w o r n = w_reviews w' o r n) /\
  (forall o r n, w_details w o r n = w_details w' o r n \/
                 (details_failed (w_details w o r n) /\
                  w_details w' o r n = Response 200 (Some zero_details))).

(** The reasons of identify_high_impact_pr, each evaluated on its own
    field. *)
Definition high_impact_holds (pr : enriched) (s : string) : Prop :=
  (s = "Large PR (>500 LOC changed)" /\ (500 < e_total_changes pr)%Z) \/
  (s = "Touches many files" /\ (20 < e_changed_files pr)%Z) \/
  (s = "No reviewers commented" /\ e_reviewers_commented pr = 0%Z) \/
  (s = "No approvals" /\ e_approvals pr = 0%Z) \/
  (s = "Open >72h" /\ exists h, e_cycle_time_hours pr = Some h /\ (72 < h)%Q) \/
  (s = "No review started" /\ e_review_time_hours pr = None).

(** Python truthiness of a list. *)
Definition nonempty {A} (l : list A) : bool := match l with [] => false | _ => true end.

(** [state != "closed" and pr.get("merged_at") is None] *)
Definition open_unmerged (p : raw_pr) : bool :=
  negb (String.eqb (pr_state p) "closed") &&
  match get (pr_merged_at p) with None => true | Some _ => false end.

Definition sum_over {A} (f : A -> Z) (l : list A) : Z :=
  fold_right (fun x acc => (f x + acc)%Z) 0%Z l.

(** The number of entries of [logins] equal to the non-empty login [u]. *)
Definition login_count (u : string) (logins : list string) : Z :=
  Z.of_nat (length (List.filter (fun l => String.eqb l u && negb (String.eqb l "")) logins)).

Definition pr_author (e : enriched) : string := pr_user_login (e_pr e).
Definition pr_repo (e : enriched) : string := pr_base_full_name (e_pr e).

Definition is_ok {A} (r : result A) : bool := match r with Ok _ => true | Raise _ => false end.

(* ------------------------------------------------------------------ *)
(** ** Sample inputs *)

(** 2024-06-30T00:00:00Z *)
Definition now_sample : datetime := {| dt_aware := true; dt_us := 1719705600000000 |}.

Definition author_sample : user_obj := {| u_login := Val "bob"; u_other_keys := 3 |}.

(** A merged PR of acme/widgets, created ten days before [now_sample]. *)
Definition pr_sample : raw_pr :=
  {| pr_number := 7; pr_user_login := "alice"; pr_state := "closed";
     pr_created_at := Val "2024-06-20T00:00:00Z";
     pr_merged_at := Val "2024-06-28T00:00:00Z";
     pr_title := Val "Rework widget layout"; pr_html_url := Val "https://github.com/acme/widgets/pull/7";
     pr_base_full_name := "acme/widgets"; pr_requested_reviewers := Val [] |}.

(** The same PR with a creation timestamp that has no UTC offset. *)
Definition pr_naive_sample : raw_pr :=
  {| pr_number := 8; pr_user_login := "alice"; pr_state := "open";
     pr_created_at := Val "2024-06-29T00:00:00"; pr_merged_at := Null;
     pr_title := Val "Draft"; pr_html_url := Val "https://github.com/acme/widgets/pull/8";
     pr_base_full_name := "acme/widgets"; pr_requested_reviewers := Val [] |}.

Definition approved_review_sample : review :=
  {| r_user := Val author_sample; r_state := Val "APPROVED";
     r_submitted_at := Val "2024-06-21T00:00:00Z" |}.

(** A review whose state is spelled in lower case. *)
Definition lowercase_review_sample : review :=
  {| r_user := Val author_sample; r_state := Val "approved";
     r_submitted_at := Val "2024-06-21T00:00:00Z" |}.

(** A review whose user object has no [login] key. *)
Definition loginless_review_sample : review :=
  {| r_user := Val {| u_login := Absent; u_other_keys := 1 |}; r_state := Val "COMMENTED";
     r_submitted_at := Val "2024-06-21T00:00:00Z" |}.

(** The API: acme/widgets lists [pr_sample] (size 600 / 25 files, one
    approval); everything else answers 404 with an error payload. *)
Definition world_sample : world :=
  {| w_pulls := fun o r =>
       if String.eqb o "acme" && String.eqb r "widgets"
       then Response 200 (Some (JList [pr_sample])) else Response 404 (Some JNotList);
     w_details := fun _ _ _ =>
       Response 200 (Some {| d_additions := Val 600%Z; d_deletions := Val 0%Z;
                             d_changed_files := Val 25%Z |});
     w_reviews := fun _ _ _ => Response 200 (Some [approved_review_sample]) |}.

(** The same API with every PR-detail request failing with a 502. *)
Definition world_details_down : world :=
  {| w_pulls := w_pulls world_sample;
     w_details := fun _ _ _ => Response 502 None;
     w_reviews := w_reviews world_sample |}.

(** The same API with the detail bodies reporting size zero. *)
Definition world_details_zero : world :=
  {| w_pulls := w_pulls world_sample;
     w_details := fun _ _ _ => Response 200 (Some zero_details);
     w_reviews := w_reviews world_sample |}.

(** The API unreachable: every request raises (connect error, timeout). *)
Definition world_unreachable : world :=
  {| w_pulls := fun _ _ => Transport_failure;
     w_details := fun _ _ _ => Transport_failure;
     w_reviews := fun _ _ _ => Transport_failure |}.

(* ================================================================== *)
(** * Properties *)

(* ------------------------------------------------------------------ *)
(** ** Bottleneck reasons *)

Lemma Qgt_bool_true (a b : Q) : Qgt_bool a b = true <-> (b < a)%Q.
Proof.
  unfold Qgt_bool. rewrite negb_true_iff. split.
  - intros H. apply Qnot_le_lt. intros Hle. apply Qle_bool_iff in Hle. congruence.
  - intros H. destruct (Qle_bool a b) eqn:E; [|reflexivity].
    apply Qle_bool_iff in E. exfalso. apply (Qlt_not_le b a); assumption.
Qed.

Lemma In_when (b : bool) (l s : string) : In s (when b l) <-> s = l /\ b = true.
Proof. destruct b; simpl; intuition congruence. Qed.

Lemma In_threshold (o : option Q) (t : Q) (none_msg over_msg s : string) :
  In s (match o with
        | None => [none_msg]
        | Some h => when (Qgt_bool h t) over_msg
        end) <->
  (s = none_msg /\ o = None) \/ (s = over_msg /\ exists h, o = Some h /\ (t < h)%Q).
Proof.
  destruct o as [h|]; simpl.
  - rewrite In_when, Qgt_bool_true. split.
    + intros [-> H]. right. eauto.
    + intros [[_ H]|[-> [h' [Hh Hlt]]]]; [discriminate|]. injection Hh as <-. auto.
  - split.
    + intros [<-|[]]. auto.
    + intros [[-> _]|[_ [h [Hh _]]]]; [auto|discriminate].
Qed.

Lemma detect_bottlenecks_In (pr : enriched) (s : string) :
  In s (detect_bottlenecks pr) <-> bottleneck_holds pr s.
Proof.
  unfold detect_bottlenecks, bottleneck_holds.
  rewrite !in_app_iff, !In_when, !In_threshold, Z.ltb_lt, Z.ltb_lt, !Z.eqb_eq.
  reflexivity.
Qed.

Lemma detect_bottlenecks_NoDup (pr : enriched) : NoDup (detect_bottlenecks pr).
Proof.
  unfold detect_bottlenecks.
  destruct (Z.ltb 500 (e_total_changes pr)), (Z.ltb 20 (e_changed_files pr)),
    (e_review_time_hours pr) as [h|], (e_cycle_time_hours pr) as [c|],
    (Z.eqb (e_reviewers_commented pr) 0), (Z.eqb (e_approvals pr) 0);
  try destruct (Qgt_bool h 24); try destruct (Qgt_bool c 72); simpl;
  apply (bool_decide_unpack _); vm_compute; reflexivity.
Qed.

(** Peel the [let!] steps of a computation known to succeed. *)
Ltac rbind_inv H :=
  repeat match type of H with
  | rbind ?m _ = Ok _ =>
      let E := fresh "E" in
      destruct m eqn:E; simpl in H; [|discriminate H]
  end.

Lemma process_single_pr_bottlenecks fi pr dout rout e :
  process_single_pr fi pr dout rout = Ok e -> e_bottlenecks e = detect_bottlenecks e.
Proof.
  unfold process_single_pr. intros H. rbind_inv H.
  injection H as <-. reflexivity.
Qed.

(** C9: the bottleneck list of a PR holds exactly the reasons its fields
    imply, each evaluated independently (so "No review started" and "No
    approvals" depend only on review_time_hours and on approvals), without
    repetition; this is the list process_single_pr stores in the PR. *)
Theorem bottleneck_reasons_exact :
  (forall pr : enriched,
     NoDup (detect_bottlenecks pr) /\
     forall s, In s (detect_bottlenecks pr) <-> bottleneck_holds pr s) /\
  (forall fi pr dout rout e,
     process_single_pr fi pr dout rout = Ok e ->
     forall s, In s (e_bottlenecks e) <-> bottleneck_holds e s).
Proof.
  split.
  - intros pr. split; [apply detect_bottlenecks_NoDup|apply detect_bottlenecks_In].
  - intros fi pr dout rout e H s.
    rewrite (process_single_pr_bottlenecks _ _ _ _ _ H). apply detect_bottlenecks_In.
Qed.

(* ------------------------------------------------------------------ *)
(** ** Medians *)

Lemma omap_id_map {A B} (f : A -> option B) (l : list A) :
  omap (fun v => v) (map f l) = omap f l.
Proof. induction l as [|x l IH]; simpl; [done|]. destruct (f x); simpl; [f_equal|]; exact IH. Qed.

Lemma omap_id_map_Some {A} (l : list A) : omap (fun v => v) (map Some l) = l.
Proof. induction l as [|x l IH]; simpl; [done|]. f_equal. exact IH. Qed.

Lemma omap_id_nil_iff {A} (values : list (option A)) :
  omap (fun v => v) values = [] <-> Forall (fun v => v = None) values.
Proof.
  induction values as [|[x|] vs IH]; simpl.
  - split; auto.
  - split; [discriminate|]. intros H. inversion H. discriminate.
  - rewrite IH. split; [auto|]. intros H. by inversion H.
Qed.

Lemma agg_step_times st pr st' :
  agg_step st pr = Ok st' ->
  st_review_times st' = (st_review_times st ++
    match e_review_time_hours pr with Some h => [h] | None => [] end)%list /\
  st_merge_times st' = (st_merge_times st ++
    match e_cycle_time_hours pr with Some h => [h] | None => [] end)%list.
Proof.
  unfold agg_step. intros H. rbind_inv H.
  destruct (add_reviews _ _ _) as [[rbc rp] rl]. injection H as <-. simpl. done.
Qed.

Lemma agg_loop_times st prs st' :
  agg_loop st prs = Ok st' ->
  st_review_times st' = (st_review_times st ++ omap e_review_time_hours prs)%list /\
  st_merge_times st' = (st_merge_times st ++ omap e_cycle_time_hours prs)%list.
Proof.
  revert st. induction prs as [|pr prs IH]; intros st H; simpl in H.
  - injection H as <-. simpl. by rewrite !app_nil_r.
  - destruct (agg_step st pr) as [st1|] eqn:E; simpl in H; [|discriminate].
    destruct (agg_step_times _ _ _ E) as [Hr Hm].
    destruct (IH _ H) as [Hr' Hm']. rewrite Hr', Hm', Hr, Hm. simpl.
    destruct (e_review_time_hours pr), (e_cycle_time_hours pr); simpl;
      by rewrite <- !app_assoc.
Qed.

(** C7: the median is taken over the non-null samples only, and it is
    null exactly when every sample is null (in particular for no sample);
    the median review and merge times of the aggregation are these medians
    of the PRs' review_time_hours and cycle_time_hours. *)
Theorem median_null_iff_all_null :
  (forall values : list (option Q),
     (median_or_none values = None <-> Forall (fun v => v = None) values) /\
     ((exists v, In (Some v) values) ->
      median_or_none values = Some (median (omap (fun v => v) values)))) /\
  (forall prs s,
     compute_aggregations prs = Ok s ->
     median_review_time_hours s = median_or_none (map e_review_time_hours prs) /\
     median_merge_time_hours s = median_or_none (map e_cycle_time_hours prs)).
Proof.
  split.
  - intros values. unfold median_or_none. split.
    + rewrite <- omap_id_nil_iff. destruct (omap (fun v => v) values); split; done.
    + intros [v Hv]. destruct (omap (fun v => v) values) eqn:E; [|done].
      apply omap_id_nil_iff in E. rewrite Forall_forall in E.
      specialize (E _ (proj2 (list_elem_of_In _ _) Hv)). discriminate.
  - intros prs s H. unfold compute_aggregations in H. rbind_inv H.
    injection H as <-. simpl.
    destruct (agg_loop_times _ _ _ E) as [Hr Hm]. rewrite Hr, Hm. simpl.
    unfold median_or_none. by rewrite !omap_id_map_Some, !omap_id_map.
Qed.

(* ------------------------------------------------------------------ *)
(** ** Burnout *)

Lemma insert_desc_perm x l : Permutation (insert_desc x l) (x :: l).
Proof.
  induction l as [|y l IH]; simpl; [done|].
  destruct (Z.ltb (snd y) (snd x)); [done|].
  rewrite IH. apply perm_swap.
Qed.

Lemma sort_desc_fold_perm l acc :
  Permutation (fold_left (fun acc x => insert_desc x acc) l acc) (l ++ acc).
Proof.
  revert acc. induction l as [|x l IH]; intros acc; simpl; [done|].
  rewrite IH, insert_desc_perm. symmetry. apply Permutation_middle.
Qed.

Lemma sort_desc_perm t : Permutation (sort_desc t) t.
Proof. unfold sort_desc. rewrite sort_desc_fold_perm. by rewrite app_nil_r. Qed.

Lemma insert_desc_HdRel y x l :
  HdRel loc_desc y l -> loc_desc y x -> HdRel loc_desc y (insert_desc x l).
Proof.
  intros Hhd Hyx. destruct l as [|z l]; simpl; [by constructor|].
  destruct (Z.ltb (snd z) (snd x)); constructor; [done|]. by inversion Hhd.
Qed.

Lemma insert_desc_sorted x l : Sorted loc_desc l -> Sorted loc_desc (insert_desc x l).
Proof.
  induction l as [|y l IH]; intros Hs; simpl; [by repeat constructor|].
  destruct (Z.ltb (snd y) (snd x)) eqn:E.
  - constructor; [done|]. constructor. unfold loc_desc. apply Z.ltb_lt in E. lia.
  - inversion Hs as [|? ? Hs' Hhd]; subst. constructor; [by apply IH|].
    apply insert_desc_HdRel; [done|]. unfold loc_desc. apply Z.ltb_ge in E. lia.
Qed.

Lemma sort_desc_sorted t : Sorted loc_desc (sort_desc t).
Proof.
  unfold sort_desc. cut (forall acc, Sorted loc_desc acc ->
    Sorted loc_desc (fold_left (fun acc x => insert_desc x acc) t acc)).
  { intros H. apply H. constructor. }
  induction t as [|x t IH]; intros acc Hs; simpl; [done|].
  apply IH, insert_desc_sorted, Hs.
Qed.

Lemma share_ge_40_iff (work total : Z) :
  (0 < total)%Z -> share_ge_40 work total = true <-> (2 * total <= 5 * work)%Z.
Proof.
  intros Ht. destruct total as [|p|p]; [lia| |lia].
  unfold share_ge_40. rewrite Qle_bool_iff.
  unfold Qdiv, Qinv, inject_Z, Qmult, Qle. simpl. lia.
Qed.

(** C4: with a positive authored-LOC total, the contributors are ranked
    by authored LOC, descending (a permutation of the table, ties in
    insertion order), and exactly those among the first max(1, n/10) of
    that ranking whose LOC is at least 40% of the total are flagged; a
    zero total (in particular an empty table) flags nobody. *)
Theorem detect_burnout_top_share (t : list (string * Z)) :
  (sum_values t = 0%Z -> detect_burnout t = []) /\
  ((0 < sum_values t)%Z ->
     Permutation (sort_desc t) t /\
     Sorted loc_desc (sort_desc t) /\
     forall u, In u (detect_burnout t) <->
       exists w, In (u, w) (firstn (Nat.max 1 (length t / 10)) (sort_desc t)) /\
                 (2 * sum_values t <= 5 * w)%Z).
Proof.
  split.
  - intros H0. unfold detect_burnout. destruct t; [done|]. by rewrite H0.
  - intros Hpos. split; [apply sort_desc_perm|]. split; [apply sort_desc_sorted|].
    intros u.
    assert (Hd : detect_burnout t =
      map fst (List.filter (fun uw => share_ge_40 (snd uw) (sum_values t))
                 (firstn (Nat.max 1 (length t / 10)) (sort_desc t)))).
    { unfold detect_burnout, top_count.
      rewrite (Permutation_length (sort_desc_perm t)).
      destruct t as [|kv t']; [simpl in Hpos; lia|].
      destruct (Z.eqb_spec (sum_values (kv :: t')) 0); [lia|]. reflexivity. }
    rewrite Hd, in_map_iff. split.
    + intros [[u' w] [Hu Hin]]. simpl in Hu. subst u'.
      apply filter_In in Hin as [Hin Hs]. simpl in Hs.
      exists w. split; [done|]. by apply share_ge_40_iff.
    + intros [w [Hin Hs]]. exists (u, w). split; [done|].
      apply filter_In. split; [done|]. simpl. by apply share_ge_40_iff.
Qed.

(* ------------------------------------------------------------------ *)
(** ** Window filter *)

Lemma window_prefix_cons fi cutoff pr prs :
  window_prefix fi cutoff (pr :: prs) =
  match created_ts fi pr with
  | None => window_prefix fi cutoff prs
  | Some d => if Z.leb (dt_us cutoff) (dt_us d) then pr :: window_prefix fi cutoff prs else []
  end.
Proof.
  unfold window_prefix. cbn [take_while].
  destruct (created_ts fi pr) as [d|] eqn:E;
    [destruct (Z.leb (dt_us cutoff) (dt_us d))|]; cbn [List.filter]; rewrite ?E; done.
Qed.

Lemma filter_from_cons fi cutoff pr prs :
  filter_from fi cutoff (pr :: prs) =
  match created_ts fi pr with
  | None => filter_from fi cutoff prs
  | Some pr_date =>
      let! keep := dt_ge pr_date cutoff in
      if keep then let! r := filter_from fi cutoff prs in Ok (pr :: r) else Ok []
  end.
Proof.
  simpl. unfold created_ts. destruct (str_truthy (get (pr_created_at pr))); done.
Qed.

Lemma filter_from_prefix fi cutoff prs :
  dt_aware cutoff = true ->
  (forall pr d, In pr prs -> created_ts fi pr = Some d -> dt_aware d = true) ->
  filter_from fi cutoff prs = Ok (window_prefix fi cutoff prs).
Proof.
  intros Hc. induction prs as [|pr prs IH]; intros Haware; [done|].
  assert (IH' : filter_from fi cutoff prs = Ok (window_prefix fi cutoff prs)).
  { apply IH. intros pr' d Hin. apply Haware. by right. }
  rewrite filter_from_cons, window_prefix_cons.
  destruct (created_ts fi pr) as [d|] eqn:Hp; [|exact IH'].
  assert (Hd : dt_aware d = true) by exact (Haware pr d (or_introl eq_refl) Hp).
  unfold dt_ge. rewrite Hd, Hc. simpl.
  destruct (Z.leb (dt_us cutoff) (dt_us d)); simpl; [|done].
  rewrite IH'. reflexivity.
Qed.

(** C3 (amended): for a window whose cutoff [now - days] is a valid
    datetime, and a feed whose parseable creation timestamps carry a UTC
    offset, the filter returns the longest prefix of PRs created at or
    after the cutoff, stopping at the first older PR, where a PR with a
    missing, empty or unparseable timestamp is skipped without stopping
    the scan. *)
Theorem filter_prs_by_date_prefix fi now prs days :
  dt_aware now = true ->
  (Z.abs days <= TIMEDELTA_MAX_DAYS)%Z ->
  (DATETIME_MIN_US <= dt_us now - days * US_PER_DAY <= DATETIME_MAX_US)%Z ->
  (forall pr d, In pr prs -> created_ts fi pr = Some d -> dt_aware d = true) ->
  filter_prs_by_date fi now prs days =
    Ok (window_prefix fi {| dt_aware := true; dt_us := dt_us now - days * US_PER_DAY |} prs).
Proof.
  intros Hnow Hdays Hrange Haware. unfold filter_prs_by_date, sub_days.
  destruct (Z.ltb_spec TIMEDELTA_MAX_DAYS (Z.abs days)); [lia|].
  destruct (Z.ltb_spec (dt_us now - days * US_PER_DAY) DATETIME_MIN_US); [lia|].
  destruct (Z.ltb_spec DATETIME_MAX_US (dt_us now - days * US_PER_DAY)); [lia|].
  simpl. rewrite Hnow. apply filter_from_prefix; [done|exact Haware].
Qed.

(** C3, instance: a thirty-day window over the sample feed keeps the PR. *)
Lemma filter_prs_by_date_prefix_witness :
  filter_prs_by_date iso_subset now_sample [pr_sample] 30 =
    Ok (window_prefix iso_subset
          {| dt_aware := true; dt_us := dt_us now_sample - 30 * US_PER_DAY |} [pr_sample]) /\
  window_prefix iso_subset
    {| dt_aware := true; dt_us := dt_us now_sample - 30 * US_PER_DAY |} [pr_sample] = [pr_sample].
Proof.
  split; [|vm_compute; reflexivity].
  apply filter_prs_by_date_prefix.
  - reflexivity.
  - vm_compute. discriminate.
  - vm_compute. split; discriminate.
  - intros pr d [<-|[]] Hd. vm_compute in Hd. injection Hd as <-. reflexivity.
Defined.

(** C3 fails as stated: a window of 1000000 days puts the cutoff before
    year 1, and [now - timedelta(days=days)] raises OverflowError, even on
    an empty feed. *)
Lemma filter_prs_by_date_overflow :
  filter_prs_by_date iso_subset now_sample [] 1000000 = Raise OverflowError.
Proof. vm_compute. reflexivity. Qed.

(** A creation timestamp without a UTC offset parses to a naive datetime,
    and comparing it with the aware cutoff raises TypeError outside the
    [try]. *)
Example filter_prs_by_date_naive_timestamp :
  filter_prs_by_date iso_subset now_sample [pr_naive_sample] 30 = Raise TypeError.
Proof. vm_compute. reflexivity. Qed.

(* ------------------------------------------------------------------ *)
(** ** Cache *)

Lemma N_of_ascii_inj (a b : ascii) : N_of_ascii a = N_of_ascii b -> a = b.
Proof.
  intros H. rewrite <- (ascii_N_embedding a), <- (ascii_N_embedding b). by rewrite H.
Qed.

Lemma str_leb_total (s t : string) : str_leb s t = true \/ str_leb t s = true.
Proof.
  revert t. induction s as [|a s IH]; intros [|b t]; simpl; auto.
  destruct (N.ltb_spec (N_of_ascii a) (N_of_ascii b)); [auto|].
  destruct (N.ltb_spec (N_of_ascii b) (N_of_ascii a)); [auto|].
  assert (E : N_of_ascii a = N_of_ascii b) by lia.
  rewrite E, N.eqb_refl. simpl. apply IH.
Qed.

Lemma str_leb_trans (s t u : string) :
  str_leb s t = true -> str_leb t u = true -> str_leb s u = true.
Proof.
  revert t u. induction s as [|a s IH]; intros [|b t] [|c u]; simpl; auto; try discriminate.
  rewrite !orb_true_iff, !andb_true_iff, !N.ltb_lt, !N.eqb_eq.
  intros [H1|[H1 H1']] [H2|[H2 H2']]; try (left; lia).
  right. split; [lia|]. eauto.
Qed.

Lemma str_leb_antisym (s t : string) :
  str_leb s t = true -> str_leb t s = true -> s = t.
Proof.
  revert t. induction s as [|a s IH]; intros [|b t]; simpl; auto; try discriminate.
  rewrite !orb_true_iff, !andb_true_iff, !N.ltb_lt, !N.eqb_eq.
  intros [H1|[H1 H1']] [H2|[H2 H2']]; try lia.
  f_equal; [by apply N_of_ascii_inj|]. eauto.
Qed.

#[global] Instance str_le_total : Total str_le.
Proof. intros s t. apply str_leb_total. Qed.

#[global] Instance str_le_trans : Transitive str_le.
Proof. intros s t u. apply str_leb_trans. Qed.

#[global] Instance str_le_antisymm : AntiSymm (=) str_le.
Proof. intros s t. apply str_leb_antisym. Qed.

Lemma make_cache_key_perm repos1 repos2 days :
  Permutation repos1 repos2 -> make_cache_key repos1 days = make_cache_key repos2 days.
Proof.
  intros H. unfold make_cache_key, sort_repos. f_equal.
  pose proof (Sorted_merge_sort str_le repos1) as S1.
  pose proof (Sorted_merge_sort str_le repos2) as S2.
  pose proof (merge_sort_Permutation str_le repos1) as P1.
  pose proof (merge_sort_Permutation str_le repos2) as P2.
  apply (Sorted_unique str_le); [exact S1|exact S2|].
  rewrite P1, P2. exact H.
Qed.

(** C5 (amended): the cache key is the sorted list of identifiers with
    duplicates kept, so requests whose lists are permutations of each
    other, with the same window, share an entry. An entry younger than
    600 s is returned unchanged whatever the API would answer now (the
    pipeline does not run); with no entry or an entry at least 600 s old
    the pipeline runs and, when it completes, its result overwrites the
    entry under that key (an exception leaves the cache as it was). *)
Theorem get_insights_cache_permutation (fi : string -> option datetime) (w : world)
    (clock : Q) (now : datetime) (cache : gmap cache_key cache_entry)
    (repos1 repos2 : list string) (days : Z) :
  Permutation repos1 repos2 ->
  make_cache_key repos2 days = make_cache_key repos1 days /\
  (forall e, cache !! make_cache_key repos1 days = Some e ->
     (clock - c_time e < CACHE_TTL_SECONDS)%Q ->
     get_insights fi w clock now cache repos2 days = (cache, Ok (c_data e))) /\
  ((forall e, cache !! make_cache_key repos1 days = Some e ->
     (CACHE_TTL_SECONDS <= clock - c_time e)%Q) ->
   get_insights fi w clock now cache repos2 days =
     match compute_insights fi w now repos2 days with
     | Ok r => (<[make_cache_key repos1 days := {| c_time := clock; c_data := r |}]> cache, Ok r)
     | Raise ex => (cache, Raise ex)
     end).
Proof.
  intros Hperm. pose proof (make_cache_key_perm _ _ days Hperm) as Hkey.
  split; [done|]. unfold get_insights. rewrite <- Hkey. split.
  - intros e He Hfresh. rewrite He.
    destruct (Qlt_le_dec (clock - c_time e) CACHE_TTL_SECONDS) as [_|Hle]; [done|].
    exfalso. exact (Qlt_not_le _ _ Hfresh Hle).
  - intros Hstale. destruct (cache !! make_cache_key repos1 days) as [e|] eqn:He; [|done].
    specialize (Hstale e eq_refl).
    destruct (Qlt_le_dec (clock - c_time e) CACHE_TTL_SECONDS) as [Hlt|_]; [|done].
    exfalso. exact (Qlt_not_le _ _ Hlt Hstale).
Qed.

(** C5, instance: the first request (acme/widgets, invalidrepo) stores
    its summary; the same repositories in the other order a minute later
    hit that entry and return its data, although the API is now down. *)
Lemma get_insights_cache_permutation_witness :
  Permutation ["acme/widgets"; "invalidrepo"] ["invalidrepo"; "acme/widgets"] /\
  exists e,
    fst (get_insights iso_subset world_sample 0 now_sample ∅ ["acme/widgets"; "invalidrepo"] 30)
      !! make_cache_key ["acme/widgets"; "invalidrepo"] 30 = Some e /\
    get_insights iso_subset world_unreachable 60 now_sample
      (fst (get_insights iso_subset world_sample 0 now_sample ∅ ["acme/widgets"; "invalidrepo"] 30))
      ["invalidrepo"; "acme/widgets"] 30
    = (fst (get_insights iso_subset world_sample 0 now_sample ∅ ["acme/widgets"; "invalidrepo"] 30),
       Ok (c_data e)).
Proof.
  assert (Hperm : Permutation ["acme/widgets"; "invalidrepo"] ["invalidrepo"; "acme/widgets"])
    by apply perm_swap.
  split; [exact Hperm|].
  destruct (get_insights_cache_permutation iso_subset world_unreachable 60 now_sample
              (fst (get_insights iso_subset world_sample 0 now_sample ∅
                      ["acme/widgets"; "invalidrepo"] 30))
              _ _ 30 Hperm) as [_ [Hhit _]].
  destruct (fst (get_insights iso_subset world_sample 0 now_sample ∅
                   ["acme/widgets"; "invalidrepo"] 30) !! make_cache_key ["acme/widgets"; "invalidrepo"] 30)
    as [e|] eqn:E.
  - exists e. split; [reflexivity|]. apply (Hhit e eq_refl).
    assert (Ht : option_map c_time (fst (get_insights iso_subset world_sample 0 now_sample ∅
                   ["acme/widgets"; "invalidrepo"] 30) !! make_cache_key ["acme/widgets"; "invalidrepo"] 30)
                 = Some 0%Q) by (vm_compute; reflexivity).
    rewrite E in Ht. injection Ht as Ht. rewrite Ht. vm_compute. reflexivity.
  - vm_compute in E. discriminate.
Defined.

(** C5 fails as stated: the key keeps duplicates. A request for
    acme/widgets listed twice succeeds and is stored; a request for
    acme/widgets alone a minute later misses that entry and runs the
    pipeline again (here against an unreachable API, so it raises). *)
Lemma get_insights_duplicates_miss :
  match snd (get_insights iso_subset world_sample 0 now_sample ∅ ["acme/widgets"; "acme/widgets"] 30) with
  | Ok _ => True | Raise _ => False end /\
  snd (get_insights iso_subset world_unreachable 60 now_sample
         (fst (get_insights iso_subset world_sample 0 now_sample ∅ ["acme/widgets"; "acme/widgets"] 30))
         ["acme/widgets"] 30) = Raise TransportError.
Proof. split; vm_compute; [exact I | reflexivity]. Qed.

(* ------------------------------------------------------------------ *)
(** ** Request loop and PR-list fetch *)

Lemma collect_prs_skips_unseparated fi w now days repo rest :
  contains_char "/" repo = false ->
  collect_prs fi w now days (repo :: rest) = collect_prs fi w now days rest.
Proof. intros H. simpl. by rewrite H. Qed.

Lemma fetch_github_prs_response status body :
  exists prs, fetch_github_prs (Response status body) = Ok prs.
Proof. destruct body as [[prs|]|]; simpl; eauto. Qed.

(** C6 (code defect): "invalidrepo" is skipped, but "acme/widgets/extra"
    has two separators, [owner, repo_name = repo.split("/")] raises
    ValueError, and the whole request fails with it, whatever the API
    would answer. *)
Theorem get_insights_extra_separator_raises (fi : string -> option datetime) (w : world)
    (clock : Q) (now : datetime) :
  get_insights fi w clock now ∅ ["invalidrepo"; "acme/widgets/extra"] 30 = (∅, Raise ValueError).
Proof. vm_compute. reflexivity. Qed.

(** C1 (code defect): when the PR-list request itself raises (connect
    error, timeout), [session.get] is outside the [try], so
    fetch_github_prs raises instead of returning [] and the request fails. *)
Theorem fetch_github_prs_unreachable_raises (fi : string -> option datetime) (clock : Q)
    (now : datetime) :
  fetch_github_prs Transport_failure = Raise TransportError /\
  get_insights fi world_unreachable clock now ∅ ["acme/widgets"] 30 = (∅, Raise TransportError).
Proof. split; vm_compute; reflexivity. Qed.

(* ------------------------------------------------------------------ *)
(** ** Reviewer metrics *)

Lemma is_approved_state (r : review) :
  is_approved r = bool_decide (r_state r = Val "APPROVED").
Proof.
  unfold is_approved. destruct (r_state r) as [| |s].
  - by rewrite bool_decide_false.
  - by rewrite bool_decide_false.
  - destruct (String.eqb_spec s "APPROVED") as [->|Hne].
    + by rewrite bool_decide_true.
    + rewrite bool_decide_false; [done|]. congruence.
Qed.

Lemma calculate_reviewer_metrics_Ok pr reviews m :
  calculate_reviewer_metrics pr reviews = Ok m ->
  reviewers_commented m = Z.of_nat (size (commented_set reviews)) /\
  approvals m = Z.of_nat (length (List.filter (fun r => is_approved r) reviews)).
Proof.
  unfold calculate_reviewer_metrics. intros H. rbind_inv H.
  injection H as <-. simpl. done.
Qed.

(** C2 fails as stated: the code compares the state with "APPROVED"
    exactly, so a review whose state is "approved" is not counted. *)
Lemma calculate_reviewer_metrics_lowercase_approved :
  count_state "approved" [lowercase_review_sample] = 1%nat /\
  calculate_reviewer_metrics pr_sample [lowercase_review_sample] =
    Ok {| reviewers_requested := 0; reviewers_commented := 1; approvals := 0 |}.
Proof. split; vm_compute; reflexivity. Qed.

(** C2, amended: whenever the metrics are computed, approvals is the
    number of review entries whose state is exactly "APPROVED". *)
Theorem calculate_reviewer_metrics_approvals (pr : raw_pr) (reviews : list review)
    (m : reviewer_stats) :
  calculate_reviewer_metrics pr reviews = Ok m ->
  approvals m = Z.of_nat (count_state "APPROVED" reviews).
Proof.
  intros H. rewrite (proj2 (calculate_reviewer_metrics_Ok _ _ _ H)).
  unfold count_state. do 2 f_equal. apply List.filter_ext. exact is_approved_state.
Qed.

(** C2, instance: one "APPROVED" and one "approved" review give one
    approval. *)
Lemma calculate_reviewer_metrics_approvals_witness :
  calculate_reviewer_metrics pr_sample [approved_review_sample; lowercase_review_sample] =
    Ok {| reviewers_requested := 0; reviewers_commented := 1; approvals := 1 |} /\
  approvals {| reviewers_requested := 0; reviewers_commented := 1; approvals := 1 |} =
    Z.of_nat (count_state "APPROVED" [approved_review_sample; lowercase_review_sample]).
Proof.
  assert (H : calculate_reviewer_metrics pr_sample [approved_review_sample; lowercase_review_sample] =
                Ok {| reviewers_requested := 0; reviewers_commented := 1; approvals := 1 |})
    by (vm_compute; reflexivity).
  split; [exact H|]. exact (calculate_reviewer_metrics_approvals _ _ _ H).
Defined.

(** C8 (code defect): a review whose user object has no login adds
    [None] to the set of commenters, so reviewers_commented is 1 while no
    review carries a non-null login; the reviewer_logins of the same PR,
    computed a few lines later, drop it. *)
Theorem calculate_reviewer_metrics_counts_missing_login :
  calculate_reviewer_metrics pr_sample [loginless_review_sample] =
    Ok {| reviewers_requested := 0; reviewers_commented := 1; approvals := 0 |} /\
  size (distinct_logins [loginless_review_sample]) = 0%nat /\
  reviewer_login_set [loginless_review_sample] = ∅.
Proof. split; [|split]; vm_compute; reflexivity. Qed.

(* ------------------------------------------------------------------ *)
(** ** Failed detail fetches *)

Lemma fetch_pr_details_failed (o : http_outcome pr_details) :
  details_failed o -> fetch_pr_details o = Ok empty_details.
Proof.
  intros (status & body & -> & [Hs| ->]); simpl.
  - destruct (Z.eqb_spec status 200); [contradiction|]. done.
  - by destruct (negb _).
Qed.

Lemma process_single_pr_same_size fi pr o1 o2 rout d1 d2 :
  fetch_pr_details o1 = Ok d1 -> fetch_pr_details o2 = Ok d2 ->
  extract_pr_size d1 = extract_pr_size d2 ->
  process_single_pr fi pr o1 rout = process_single_pr fi pr o2 rout.
Proof.
  intros H1 H2 H3. unfold process_single_pr. rewrite H1, H2. cbn [rbind].
  rewrite H3. reflexivity.
Qed.

Lemma process_single_pr_empty_details fi pr dout rout e :
  fetch_pr_details dout = Ok empty_details ->
  process_single_pr fi pr dout rout = Ok e ->
  e_additions e = 0%Z /\ e_deletions e = 0%Z /\ e_changed_files e = 0%Z /\
  e_total_changes e = 0%Z /\
  e_bottlenecks e = detect_bottlenecks e /\ e_high_impact_reasons e = identify_high_impact_pr e.
Proof.
  unfold process_single_pr. intros Hd H. rewrite Hd in H. cbn [rbind] in H. rbind_inv H.
  injection H as <-. simpl. done.
Qed.

Lemma sum_values_dict_add k v d : sum_values (dict_add k v d) = (sum_values d + v)%Z.
Proof.
  induction d as [|[k' v'] d IH]; unfold sum_values in *; simpl; [lia|].
  destruct (String.eqb k k'); simpl; [lia|]. rewrite IH. lia.
Qed.

Lemma add_reviews_zero logins d :
  sum_values (snd (add_reviews 0 logins d)) = sum_values (snd d).
Proof.
  unfold add_reviews. revert d. induction logins as [|x xs IH]; intros [[rbc rp] rl]; simpl; [done|].
  rewrite IH. destruct (String.eqb x ""); simpl; [done|].
  rewrite sum_values_dict_add. lia.
Qed.

Lemma agg_step_loc st pr st' :
  agg_step st pr = Ok st' ->
  st_authored_loc st' = dict_add (pr_user_login (e_pr pr)) (e_additions pr) (st_authored_loc st) /\
  st_reviewed_loc st' = snd (add_reviews (e_total_changes pr) (e_reviewer_logins pr)
                               (st_reviews_by_contributor st, st_reviewed_prs st, st_reviewed_loc st)).
Proof.
  unfold agg_step. intros H. rbind_inv H.
  destruct (add_reviews _ _ _) as [[rbc rp] rl] eqn:Ea. injection H as <-. simpl.
  split; [done|]. rewrite ?Ea. done.
Qed.

Lemma mapM_ext {A B} (f g : A -> result B) (l : list A) :
  (forall x, f x = g x) -> mapM f l = mapM g l.
Proof. intros Hfg. induction l as [|x l IH]; simpl; [done|]. by rewrite Hfg, IH. Qed.

Lemma process_repo_zeroed fi w w' owner repo_name prs :
  details_zeroed w w' ->
  process_repo fi w owner repo_name prs = process_repo fi w' owner repo_name prs.
Proof.
  intros (_ & Hr & Hd). unfold process_repo. apply mapM_ext. intros pr.
  rewrite Hr. destruct (Hd owner repo_name (pr_number pr)) as [-> | [Hf ->]]; [done|].
  apply (process_single_pr_same_size _ _ _ _ _ empty_details zero_details);
    [by apply fetch_pr_details_failed|done|done].
Qed.

Lemma collect_prs_zeroed fi w w' now days repos :
  details_zeroed w w' ->
  collect_prs fi w now days repos = collect_prs fi w' now days repos.
Proof.
  intros Hz. induction repos as [|repo rest IH]; simpl; [done|].
  destruct (contains_char "/" repo); simpl; [|exact IH].
  destruct (split_on "/" repo) as [|owner [|repo_name [|]]]; try done.
  rewrite (proj1 Hz). destruct (fetch_github_prs _) as [prs|]; simpl; [|done].
  destruct (filter_prs_by_date fi now prs days) as [recent|]; simpl; [|done].
  rewrite (process_repo_zeroed _ _ _ _ _ _ Hz), IH. reflexivity.
Qed.

(** C10: a PR whose detail request fails (a non-200 status or a body that
    does not parse) gets the empty details, whose size is 0 everywhere,
    exactly as a PR whose details report size zero; such a PR is neither
    "very large" nor "touches many files" (as a bottleneck or as a
    high-impact reason) and adds no authored or reviewed lines to the
    aggregation; and every summary is the same whether the failing detail
    requests fail or report size zero. *)
Theorem failed_details_count_as_zero_size (fi : string -> option datetime) (pr : raw_pr)
    (dout : http_outcome pr_details) (rout : http_outcome (list review)) :
  details_failed dout ->
  fetch_pr_details dout = Ok empty_details /\
  extract_pr_size empty_details = extract_pr_size zero_details /\
  extract_pr_size zero_details =
    Ok {| s_additions := 0; s_deletions := 0; s_changed_files := 0; s_total_changes := 0 |} /\
  process_single_pr fi pr dout rout = process_single_pr fi pr (Response 200 (Some zero_details)) rout /\
  (forall e, process_single_pr fi pr dout rout = Ok e ->
     e_additions e = 0%Z /\ e_deletions e = 0%Z /\ e_changed_files e = 0%Z /\
     e_total_changes e = 0%Z /\
     ~ In "Very large PR (>500 changes)" (e_bottlenecks e) /\
     ~ In "Touches many files" (e_bottlenecks e) /\
     ~ In "Large PR (>500 LOC changed)" (e_high_impact_reasons e) /\
     ~ In "Touches many files" (e_high_impact_reasons e) /\
     (forall st st', agg_step st e = Ok st' ->
        sum_values (st_authored_loc st') = sum_values (st_authored_loc st) /\
        sum_values (st_reviewed_loc st') = sum_values (st_reviewed_loc st))) /\
  (forall w w' now repos days, details_zeroed w w' ->
     compute_insights fi w now repos days = compute_insights fi w' now repos days).
Proof.
  intros Hf. pose proof (fetch_pr_details_failed _ Hf) as Hd.
  split; [exact Hd|]. split; [done|]. split; [done|]. split.
  { by apply (process_single_pr_same_size _ _ _ _ _ empty_details zero_details). }
  split.
  - intros e He.
    destruct (process_single_pr_empty_details _ _ _ _ _ Hd He)
      as (Ha & Hdel & Hcf & Htot & Hb & Hh).
    do 4 (split; [assumption|]).
    split; [|split; [|split; [|split]]].
    + rewrite Hb, detect_bottlenecks_In. unfold bottleneck_holds. rewrite Htot, Hcf.
      intuition (first [discriminate | lia]).
    + rewrite Hb, detect_bottlenecks_In. unfold bottleneck_holds. rewrite Htot, Hcf.
      intuition (first [discriminate | lia]).
    + rewrite Hh. unfold identify_high_impact_pr. rewrite Htot, Hcf.
      destruct (e_cycle_time_hours e); rewrite ?in_app_iff, ?In_when; simpl;
        intuition discriminate.
    + rewrite Hh. unfold identify_high_impact_pr. rewrite Htot, Hcf.
      destruct (e_cycle_time_hours e); rewrite ?in_app_iff, ?In_when; simpl;
        intuition discriminate.
    + intros st st' Hs. destruct (agg_step_loc _ _ _ Hs) as [Hal Hrl].
      rewrite Hal, Hrl, sum_values_dict_add, Ha, Htot, add_reviews_zero. simpl. lia.
  - intros w w' now repos days Hz. unfold compute_insights.
    by rewrite (collect_prs_zeroed _ _ _ _ _ _ Hz).
Qed.

(** C10, instance: every detail request of acme/widgets answering 502
    gives the same summary as detail bodies reporting size zero. *)
Lemma failed_details_count_as_zero_size_witness :
  details_failed (Response 502 None) /\
  process_single_pr iso_subset pr_sample (Response 502 None)
      (Response 200 (Some [approved_review_sample])) =
    process_single_pr iso_subset pr_sample (Response 200 (Some zero_details))
      (Response 200 (Some [approved_review_sample])) /\
  compute_insights iso_subset world_details_down now_sample ["acme/widgets"] 30 =
    compute_insights iso_subset world_details_zero now_sample ["acme/widgets"] 30.
Proof.
  assert (Hf : details_failed (Response 502 None)).
  { exists 502%Z, None. split; [reflexivity|]. left. lia. }
  destruct (failed_details_count_as_zero_size iso_subset pr_sample (Response 502 None)
              (Response 200 (Some [approved_review_sample])) Hf)
    as (_ & _ & _ & Hp & _ & Hw).
  split; [exact Hf|]. split; [exact Hp|]. apply Hw.
  split; [intros o r; reflexivity|]. split; [intros o r n; reflexivity|].
  intros o r n. right. split; [exact Hf|reflexivity].
Defined.

(* ------------------------------------------------------------------ *)
(** ** Further properties of the pipeline *)

Lemma filter_from_sublist fi cutoff prs r :
  filter_from fi cutoff prs = Ok r ->
  sublist r prs /\
  forall pr, In pr r -> exists d, created_ts fi pr = Some d /\
    dt_aware d = dt_aware cutoff /\ (dt_us cutoff <= dt_us d)%Z.
Proof.
  revert r. induction prs as [|pr prs IH]; intros r H; simpl in H.
  - injection H as <-. split; [constructor|intros ? []].
  - destruct (str_truthy (get (pr_created_at pr))) eqn:Ht; simpl in H.
    + destruct (get (pr_created_at pr) ≫= parse_ts fi) as [d|] eqn:Hd.
      * unfold dt_ge in H.
        destruct (Bool.eqb (dt_aware d) (dt_aware cutoff)) eqn:Ha; simpl in H; [|discriminate].
        destruct (Z.leb (dt_us cutoff) (dt_us d)) eqn:Hle.
        -- destruct (filter_from fi cutoff prs) as [r'|] eqn:Hr; simpl in H; [|discriminate].
           injection H as <-. destruct (IH r' eq_refl) as [Hs Hall].
           split; [by apply sublist_skip|].
           intros q [<-|Hq]; [|by apply Hall].
           exists d. unfold created_ts. rewrite Ht. split; [exact Hd|].
           split; [by apply Bool.eqb_prop|]. by apply Z.leb_le.
        -- injection H as <-. split; [apply sublist_nil_l|intros ? []].
      * destruct (IH r H) as [Hs Hall]. split; [by apply sublist_cons|exact Hall].
    + destruct (IH r H) as [Hs Hall]. split; [by apply sublist_cons|exact Hall].
Qed.

(** filter_prs_by_date keeps a sub-list of the feed, in feed order, and
    every PR it keeps has a creation timestamp that parses, with the same
    UTC awareness as [now], at or after [now - days]. *)
Theorem filter_prs_by_date_kept fi now prs days r :
  filter_prs_by_date fi now prs days = Ok r ->
  sublist r prs /\
  forall pr, In pr r -> exists d, created_ts fi pr = Some d /\
    dt_aware d = dt_aware now /\ (dt_us now - days * US_PER_DAY <= dt_us d)%Z.
Proof.
  unfold filter_prs_by_date, sub_days. intros H.
  destruct (Z.ltb TIMEDELTA_MAX_DAYS (Z.abs days)); simpl in H; [discriminate|].
  destruct (_ || _); simpl in H; [discriminate|].
  exact (filter_from_sublist _ _ _ _ H).
Qed.

(** Repository identifiers without a "/" play no part in the request:
    the loop answers exactly as on the list without them. *)
Lemma collect_prs_separated fi w now days repos :
  collect_prs fi w now days repos =
  collect_prs fi w now days (List.filter (contains_char "/") repos).
Proof.
  induction repos as [|repo rest IH]; simpl; [done|].
  destruct (contains_char "/" repo) eqn:Hc; simpl; [|exact IH].
  rewrite Hc. simpl. rewrite IH. reflexivity.
Qed.

Lemma mapM_length {A B} (f : A -> result B) l l' :
  mapM f l = Ok l' -> length l' = length l.
Proof.
  revert l'. induction l as [|x l IH]; intros l' H; simpl in H.
  - by injection H as <-.
  - destruct (f x); simpl in H; [|discriminate].
    destruct (mapM f l) as [ys|] eqn:E; simpl in H; [|discriminate].
    injection H as <-. simpl. by rewrite (IH ys eq_refl).
Qed.

(** When the loop over the repositories completes, it has enriched at
    most 30 PRs per identifier that contains a "/". *)
Theorem collect_prs_cap fi w now days repos all :
  collect_prs fi w now days repos = Ok all ->
  (length all <= MAX_PRS_PER_REPO * length (List.filter (contains_char "/") repos))%nat.
Proof.
  revert all. induction repos as [|repo rest IH]; intros all H; simpl in H.
  - injection H as <-. simpl. lia.
  - simpl. destruct (contains_char "/" repo); simpl in H; [|by apply IH].
    destruct (split_on "/" repo) as [|owner [|repo_name [|]]]; try discriminate.
    destruct (fetch_github_prs _) as [prs|]; simpl in H; [|discriminate].
    destruct (filter_prs_by_date fi now prs days) as [recent|]; simpl in H; [|discriminate].
    destruct (process_repo fi w owner repo_name (firstn MAX_PRS_PER_REPO recent)) as [p|] eqn:Hp;
      simpl in H; [|discriminate].
    destruct (collect_prs fi w now days rest) as [more|] eqn:Hm; simpl in H; [|discriminate].
    injection H as <-. apply mapM_length in Hp. specialize (IH more eq_refl).
    rewrite length_app, Hp, length_take. unfold MAX_PRS_PER_REPO in *. cbn [length]. lia.
Qed.

(** calculate_cycle_time raises exactly when both timestamps are
    present, non-empty and parse, one with a UTC offset and one without;
    the exception is then TypeError (naive minus aware datetime). *)
Theorem calculate_cycle_time_raises fi pr e :
  calculate_cycle_time fi pr = Raise e <->
  e = TypeError /\
  exists cs ms c m,
    get (pr_created_at pr) = Some cs /\ get (pr_merged_at pr) = Some ms /\
    cs <> "" /\ ms <> "" /\
    parse_ts fi cs = Some c /\ parse_ts fi ms = Some m /\ dt_aware c <> dt_aware m.
Proof.
  unfold calculate_cycle_time, dt_diff_hours, str_truthy. split.
  - intros H.
    destruct (get (pr_created_at pr)) as [cs|] eqn:Ec; [|discriminate].
    destruct (get (pr_merged_at pr)) as [ms|] eqn:Em; simpl in H;
      [|by rewrite orb_true_r in H].
    destruct (String.eqb_spec cs "") as [|Hcs]; [discriminate|].
    destruct (String.eqb_spec ms "") as [|Hms]; [discriminate|]. simpl in H.
    destruct (parse_ts fi cs) as [c|] eqn:Pc; [|discriminate].
    destruct (parse_ts fi ms) as [m|] eqn:Pm; [|discriminate].
    destruct (Bool.eqb (dt_aware m) (dt_aware c)) eqn:Ha; simpl in H; [discriminate|].
    injection H as <-. split; [done|]. exists cs, ms, c, m. do 6 (split; [done|]).
    intros He. rewrite He, Bool.eqb_reflx in Ha. discriminate.
  - intros [-> (cs & ms & c & m & -> & -> & Hcs & Hms & Pc & Pm & Ha)].
    rewrite (proj2 (String.eqb_neq _ _) Hcs), (proj2 (String.eqb_neq _ _) Hms). simpl.
    rewrite Pc, Pm.
    destruct (dt_aware c), (dt_aware m); simpl; congruence.
Qed.

Lemma Forall2_In_l {A B} (P : A -> B -> Prop) l k x :
  Forall2 P l k -> In x l -> exists y, In y k /\ P x y.
Proof.
  intros HF. induction HF as [|a b l k Hab HF IH]; simpl; [tauto|].
  intros [Heq|Hin]; [subst; eauto|]. destruct (IH Hin) as (y & Hy & Pxy); eauto.
Qed.

Lemma Forall2_In_r {A B} (P : A -> B -> Prop) l k y :
  Forall2 P l k -> In y k -> exists x, In x l /\ P x y.
Proof.
  intros HF. induction HF as [|a b l k Hab HF IH]; simpl; [tauto|].
  intros [Heq|Hin]; [subst; eauto|]. destruct (IH Hin) as (x & Hx & Pxy); eauto.
Qed.

Lemma review_keys_Forall2 fi rs ds :
  review_keys fi rs = Some ds ->
  Forall2 (fun r d => exists s, r_submitted_at r = Val s /\ parse_ts fi s = Some d) rs ds.
Proof.
  revert ds. induction rs as [|r rs IH]; intros ds H; simpl in H.
  - injection H as <-. constructor.
  - destruct (r_submitted_at r) as [| |s] eqn:Hs; try discriminate.
    destruct (parse_ts fi s) as [d|] eqn:Hp; [|discriminate].
    destruct (review_keys fi rs) as [ds'|]; [|discriminate].
    injection H as <-. constructor; eauto.
Qed.

Lemma review_keys_None fi rs r :
  In r rs ->
  match r_submitted_at r with Val s => parse_ts fi s = None | _ => True end ->
  review_keys fi rs = None.
Proof.
  induction rs as [|r' rs IH]; [intros []|]. intros [->|Hr] Hbad; simpl.
  - destruct (r_submitted_at r) as [| |s]; [done|done|]. by rewrite Hbad.
  - destruct (r_submitted_at r') as [| |s]; [done|done|].
    rewrite (IH Hr Hbad). by destruct (parse_ts fi s).
Qed.

Lemma min_key_In d ds : In (min_key d ds) (d :: ds).
Proof.
  revert d. induction ds as [|d' ds IH]; intros d; simpl; [auto|].
  destruct (Z.ltb (dt_us d') (dt_us d)).
  - destruct (IH d') as [H|H]; auto.
  - destruct (IH d) as [H|H]; auto.
Qed.

Lemma min_key_le d ds x : In x (d :: ds) -> (dt_us (min_key d ds) <= dt_us x)%Z.
Proof.
  revert d x. induction ds as [|d' ds IH]; intros d x Hx; simpl.
  - destruct Hx as [->|[]]. lia.
  - destruct (Z.ltb_spec (dt_us d') (dt_us d)) as [Hlt|Hge].
    + destruct Hx as [<-|Hx].
      * specialize (IH d' d' (or_introl eq_refl)). lia.
      * by apply IH.
    + destruct Hx as [<-|[<-|Hx]].
      * by apply IH; left.
      * specialize (IH d d (or_introl eq_refl)). lia.
      * by apply IH; right.
Qed.

(** When calculate_review_time_from_reviews returns a number of hours,
    the creation timestamp parses, every review has a parsed submission
    time of the same awareness, the result is at most the delay of every
    review, and it is the delay of one of them (the earliest). *)
Theorem calculate_review_time_earliest fi created reviews h :
  calculate_review_time_from_reviews fi created reviews = Ok (Some h) ->
  exists c, created ≫= parse_ts fi = Some c /\
  (forall r, In r reviews -> exists s d,
     r_submitted_at r = Val s /\ parse_ts fi s = Some d /\ dt_aware d = dt_aware c /\
     (h <= (dt_us d - dt_us c)%Z # US_PER_HOUR)%Q) /\
  (exists r s d, In r reviews /\ r_submitted_at r = Val s /\ parse_ts fi s = Some d /\
     h = (dt_us d - dt_us c)%Z # US_PER_HOUR).
Proof.
  unfold calculate_review_time_from_reviews. intros H.
  destruct reviews as [|r0 rs]; [discriminate|].
  destruct (created ≫= parse_ts fi) as [c|] eqn:Hc; [|discriminate].
  unfold earliest_submission in H.
  destruct (review_keys fi (r0 :: rs)) as [[|d ds]|] eqn:Hk; try discriminate.
  destruct (forallb _ ds) eqn:Hf; [|discriminate].
  unfold dt_diff_hours in H.
  destruct (Bool.eqb (dt_aware (min_key d ds)) (dt_aware c)) eqn:Ha; simpl in H; [|discriminate].
  injection H as <-. apply Bool.eqb_prop in Ha.
  pose proof (review_keys_Forall2 _ _ _ Hk) as HF.
  assert (Haw : forall x, In x (d :: ds) -> dt_aware x = dt_aware c).
  { assert (Hd : forall x, In x (d :: ds) -> dt_aware x = dt_aware d).
    { intros x [->|Hx]; [done|]. rewrite forallb_forall in Hf.
      apply Bool.eqb_prop, Hf, Hx. }
    intros x Hx. rewrite (Hd x Hx), <- Ha. symmetry. apply Hd, min_key_In. }
  exists c. split; [done|]. split.
  - intros r Hr. destruct (Forall2_In_l _ _ _ _ HF Hr) as (x & Hx & s & Hs & Px).
    exists s, x. do 2 (split; [done|]). split; [by apply Haw|].
    pose proof (min_key_le d ds x Hx). unfold Qle; simpl. nia.
  - destruct (Forall2_In_r _ _ _ _ HF (min_key_In d ds)) as (r & Hr & s & Hs & Ps).
    exists r, s, (min_key d ds). done.
Qed.

(** One review whose submitted_at is missing, null or unparseable makes
    calculate_review_time_from_reviews return None, whatever the other
    reviews are. *)
Theorem calculate_review_time_unparsed_submission fi created reviews r :
  In r reviews ->
  match r_submitted_at r with Val s => parse_ts fi s = None | _ => True end ->
  calculate_review_time_from_reviews fi created reviews = Ok None.
Proof.
  intros Hr Hbad. unfold calculate_review_time_from_reviews.
  destruct reviews as [|r0 rs]; [done|].
  destruct (created ≫= parse_ts fi); [|done].
  unfold earliest_submission. by rewrite (review_keys_None _ _ _ Hr Hbad).
Qed.

Lemma In_open_72 (o : option Q) (s : string) :
  In s (match o with
        | Some cycle => when (negb (Qeq_bool cycle 0) && Qgt_bool cycle 72) "Open >72h"
        | None => []
        end) <->
  s = "Open >72h" /\ exists h, o = Some h /\ (72 < h)%Q.
Proof.
  destruct o as [h|]; simpl.
  - rewrite In_when, andb_true_iff, Qgt_bool_true, negb_true_iff. split.
    + intros (-> & _ & Hlt). eauto.
    + intros (-> & h' & Hh & Hlt). injection Hh as <-. split; [done|]. split; [|done].
      destruct (Qeq_bool h 0) eqn:E; [|done]. apply Qeq_bool_eq in E.
      rewrite E in Hlt. discriminate.
  - split; [intros []|]. intros (_ & h & Hh & _). discriminate.
Qed.

Lemma is_None_true (o : option Q) :
  (match o with None => true | Some _ => false end) = true <-> o = None.
Proof. destruct o; intuition congruence. Qed.

Lemma identify_high_impact_pr_In (pr : enriched) (s : string) :
  In s (identify_high_impact_pr pr) <-> high_impact_holds pr s.
Proof.
  unfold identify_high_impact_pr, high_impact_holds.
  rewrite !in_app_iff, In_open_72, !In_when, is_None_true, Z.ltb_lt, Z.ltb_lt, !Z.eqb_eq.
  reflexivity.
Qed.

Lemma identify_high_impact_pr_NoDup (pr : enriched) : NoDup (identify_high_impact_pr pr).
Proof.
  unfold identify_high_impact_pr.
  destruct (Z.ltb 500 (e_total_changes pr)), (Z.ltb 20 (e_changed_files pr)),
    (e_review_time_hours pr) as [h|], (e_cycle_time_hours pr) as [c|],
    (Z.eqb (e_reviewers_commented pr) 0), (Z.eqb (e_approvals pr) 0);
  try destruct (negb (Qeq_bool c 0) && Qgt_bool c 72); simpl;
  apply (bool_decide_unpack _); vm_compute; reflexivity.
Qed.

Lemma process_single_pr_Ok fi pr dout rout e :
  process_single_pr fi pr dout rout = Ok e ->
  exists reviews stats,
    fetch_pr_reviews rout = Ok reviews /\
    calculate_reviewer_metrics pr reviews = Ok stats /\
    e_pr e = pr /\
    e_reviewers_commented e = reviewers_commented stats /\
    e_approvals e = approvals stats /\
    e_reviewer_logins e = elements (reviewer_login_set reviews) /\
    calculate_cycle_time fi pr = Ok (e_cycle_time_hours e) /\
    e_bottlenecks e = detect_bottlenecks e /\
    e_high_impact_reasons e = identify_high_impact_pr e.
Proof.
  unfold process_single_pr. intros H.
  destruct (fetch_pr_details dout); simpl in H; [|discriminate].
  destruct (fetch_pr_reviews rout) as [reviews|]; simpl in H; [|discriminate].
  destruct (extract_pr_size _); simpl in H; [|discriminate].
  destruct (calculate_reviewer_metrics pr reviews) as [stats|] eqn:Hm; simpl in H; [|discriminate].
  destruct (calculate_cycle_time fi pr) as [cyc|] eqn:Hc; simpl in H; [|discriminate].
  rbind_inv H. injection H as <-. exists reviews, stats. simpl. done.
Qed.

Lemma calculate_cycle_time_Some_merged fi pr h :
  calculate_cycle_time fi pr = Ok (Some h) -> str_truthy (get (pr_merged_at pr)) = true.
Proof.
  unfold calculate_cycle_time. intros H.
  destruct (str_truthy (get (pr_merged_at pr))); [done|].
  rewrite orb_true_r in H. discriminate.
Qed.

(** identify_high_impact_pr lists each reason at most once, and exactly
    the reasons whose condition holds on the PR's fields; on a processed
    PR, "Open >72h" can only be listed for a PR with a merged_at value
    (the cycle time is None for an unmerged PR). *)
Theorem identify_high_impact_exact :
  (forall pr : enriched,
     NoDup (identify_high_impact_pr pr) /\
     forall s, In s (identify_high_impact_pr pr) <-> high_impact_holds pr s) /\
  (forall fi pr dout rout e,
     process_single_pr fi pr dout rout = Ok e ->
     (forall s, In s (e_high_impact_reasons e) <-> high_impact_holds e s) /\
     (In "Open >72h" (e_high_impact_reasons e) -> str_truthy (get (pr_merged_at pr)) = true)).
Proof.
  split.
  - intros pr. split; [apply identify_high_impact_pr_NoDup|apply identify_high_impact_pr_In].
  - intros fi pr dout rout e H.
    destruct (process_single_pr_Ok _ _ _ _ _ H)
      as (reviews & stats & _ & _ & Hpr & _ & _ & _ & Hc & _ & Hh).
    rewrite Hh. split; [apply identify_high_impact_pr_In|].
    intros Hin. apply identify_high_impact_pr_In in Hin.
    unfold high_impact_holds in Hin.
    destruct Hin as [[Hs _]|[[Hs _]|[[Hs _]|[[Hs _]|[[_ (h & Hcy & _)]|[Hs _]]]]]];
      try discriminate.
    rewrite Hcy in Hc. exact (calculate_cycle_time_Some_merged _ _ _ Hc).
Qed.

Lemma reviewer_login_set_elem reviews l :
  l ∈ reviewer_login_set reviews <->
  l <> "" /\ exists r, In r reviews /\ review_has_user r = true /\ review_login r = Some l.
Proof.
  unfold reviewer_login_set. rewrite elem_of_list_to_set, list_elem_of_omap. split.
  - intros (r & Hr & Hf). apply list_elem_of_In in Hr.
    destruct (review_has_user r) eqn:Hu; simpl in Hf; [|discriminate].
    destruct (review_login r) as [l'|] eqn:Hl; simpl in Hf; [|discriminate].
    destruct (String.eqb_spec l' "") as [->|Hne]; simpl in Hf; [discriminate|].
    injection Hf as <-. eauto.
  - intros (Hne & r & Hr & Hu & Hl). exists r. split; [by apply list_elem_of_In|].
    rewrite Hu, Hl. simpl. by rewrite (proj2 (String.eqb_neq _ _) Hne).
Qed.

Lemma reviewer_login_set_size reviews :
  (size (reviewer_login_set reviews) <= size (commented_set reviews))%nat.
Proof.
  transitivity (size (list_to_set (map Some (elements (reviewer_login_set reviews)))
                        : gset (option string))).
  - rewrite size_list_to_set.
    + rewrite length_map. reflexivity.
    + apply NoDup_fmap_2; [apply _|apply NoDup_elements].
  - apply subseteq_size. intros o Ho.
    rewrite elem_of_list_to_set, list_elem_of_fmap in Ho.
    destruct Ho as (l & -> & Hl). rewrite elem_of_elements, reviewer_login_set_elem in Hl.
    destruct Hl as (_ & r & Hr & Hu & Hlog).
    unfold commented_set. rewrite elem_of_list_to_set, list_elem_of_fmap.
    exists r. split; [done|]. apply list_elem_of_In, filter_In. auto.
Qed.

(** The reviewer_logins of a processed PR have no duplicates, are the
    non-empty logins of the reviews with a truthy user, and are never
    more than its reviewers_commented count. *)
Theorem process_single_pr_reviewer_logins fi pr dout rout e :
  process_single_pr fi pr dout rout = Ok e ->
  exists reviews, fetch_pr_reviews rout = Ok reviews /\
    NoDup (e_reviewer_logins e) /\
    (forall l, In l (e_reviewer_logins e) <->
       l <> "" /\ exists r, In r reviews /\ review_has_user r = true /\ review_login r = Some l) /\
    (Z.of_nat (length (e_reviewer_logins e)) <= e_reviewers_commented e)%Z.
Proof.
  intros H.
  destruct (process_single_pr_Ok _ _ _ _ _ H)
    as (reviews & stats & Hr & Hm & _ & Hc & _ & Hl & _).
  exists reviews. split; [done|]. rewrite Hl. split; [apply NoDup_elements|]. split.
  - intros l. rewrite <- list_elem_of_In, elem_of_elements. apply reviewer_login_set_elem.
  - rewrite Hc, (proj1 (calculate_reviewer_metrics_Ok _ _ _ Hm)).
    pose proof (reviewer_login_set_size reviews) as Hs.
    change (size (reviewer_login_set reviews)) with
      (length (elements (reviewer_login_set reviews))) in Hs.
    lia.
Qed.

Lemma insert_q_perm x l : Permutation (insert_q x l) (x :: l).
Proof.
  induction l as [|y l IH]; simpl; [done|].
  destruct (Qle_bool x y); [done|]. rewrite IH. apply perm_swap.
Qed.

Lemma sort_q_perm l : Permutation (sort_q l) l.
Proof.
  induction l as [|x l IH]; simpl; [done|]. unfold sort_q in *. simpl.
  rewrite insert_q_perm, IH. done.
Qed.

Lemma median_in_range (vs : list Q) :
  vs <> [] ->
  exists a b, In a vs /\ In b vs /\ (a <= median vs <= b)%Q.
Proof.
  intros Hne. pose proof (sort_q_perm vs) as Hp.
  assert (Hin : forall i, (i < length (sort_q vs))%nat -> In (nth i (sort_q vs) 0%Q) vs).
  { intros i Hi. eapply Permutation_in; [exact Hp|]. by apply nth_In. }
  assert (Hlen : (0 < length (sort_q vs))%nat).
  { rewrite (Permutation_length Hp). destruct vs; [done|]. simpl. lia. }
  unfold median. cbv zeta.
  destruct (Nat.odd (length (sort_q vs))) eqn:Hodd.
  - exists (nth (length (sort_q vs) / 2) (sort_q vs) 0%Q),
           (nth (length (sort_q vs) / 2) (sort_q vs) 0%Q).
    assert (Hi : (length (sort_q vs) / 2 < length (sort_q vs))%nat) by (apply Nat.div_lt; lia).
    split; [by apply Hin|]. split; [by apply Hin|]. split; apply Qle_refl.
  - assert (H2 : (2 <= length (sort_q vs))%nat).
    { destruct (length (sort_q vs)) as [|[|n]] eqn:E; [lia| |lia].
      vm_compute in Hodd. discriminate. }
    assert (Hi : (length (sort_q vs) / 2 < length (sort_q vs))%nat) by (apply Nat.div_lt; lia).
    assert (Hi' : (length (sort_q vs) / 2 - 1 < length (sort_q vs))%nat) by lia.
    set (lo := nth (length (sort_q vs) / 2 - 1) (sort_q vs) 0%Q).
    set (hi := nth (length (sort_q vs) / 2) (sort_q vs) 0%Q).
    destruct (Qlt_le_dec lo hi) as [Hlt|Hge].
    + exists lo, hi. split; [by apply Hin|]. split; [by apply Hin|].
      split; [apply Qle_shift_div_l|apply Qle_shift_div_r]; lra.
    + exists hi, lo. split; [by apply Hin|]. split; [by apply Hin|].
      split; [apply Qle_shift_div_l|apply Qle_shift_div_r]; lra.
Qed.

(** A median returned by median_or_none lies between two values of the
    list that are not None. *)
Theorem median_or_none_in_range (values : list (option Q)) (m : Q) :
  median_or_none values = Some m ->
  exists a b, In (Some a) values /\ In (Some b) values /\ (a <= m <= b)%Q.
Proof.
  unfold median_or_none. intros H.
  destruct (omap (fun v => v) values) as [|v vs] eqn:Ho; [discriminate|].
  injection H as <-.
  destruct (median_in_range (v :: vs)) as (a & b & Ha & Hb & Hab); [done|].
  assert (Hback : forall x, In x (v :: vs) -> In (Some x) values).
  { intros x Hx. rewrite <- Ho in Hx. apply list_elem_of_In in Hx.
    apply list_elem_of_omap in Hx. destruct Hx as (o & Ho' & ->).
    by apply list_elem_of_In. }
  exists a, b. auto.
Qed.

(** On a processed PR, compute_impact_score is zero exactly when the PR
    changes no line, and is never below the (non-negative) number of
    changed lines. *)
Theorem compute_impact_score_processed fi pr dout rout e :
  process_single_pr fi pr dout rout = Ok e ->
  (compute_impact_score e = 0%Z <-> e_total_changes e = 0%Z) /\
  ((0 <= e_total_changes e)%Z -> (e_total_changes e <= compute_impact_score e)%Z).
Proof.
  intros H.
  destruct (process_single_pr_Ok _ _ _ _ _ H)
    as (reviews & stats & _ & Hm & _ & Hc & Ha & _).
  destruct (calculate_reviewer_metrics_Ok _ _ _ Hm) as [Hc' Ha'].
  unfold compute_impact_score. rewrite Hc, Ha, Hc', Ha'. split; [split|]; intros; nia.
Qed.

Lemma lookup0_dict_add k v d u :
  lookup0 (dict_add k v d) u = (lookup0 d u + if String.eqb k u then v else 0)%Z.
Proof.
  unfold lookup0. induction d as [|[k' v'] d IH]; simpl.
  - destruct (String.eqb k u); simpl; lia.
  - destruct (String.eqb_spec k k') as [<-|Hne]; simpl.
    + destruct (String.eqb k u); simpl; lia.
    + destruct (String.eqb_spec k' u) as [<-|Hne']; simpl.
      * rewrite (proj2 (String.eqb_neq _ _) Hne). lia.
      * exact IH.
Qed.

Lemma keys_dict_add k v d u :
  In u (map fst (dict_add k v d)) <-> u = k \/ In u (map fst d).
Proof.
  induction d as [|[k' v'] d IH]; simpl; [intuition|].
  destruct (String.eqb_spec k k') as [<-|Hne]; simpl; [intuition|].
  rewrite IH. intuition.
Qed.

Lemma add_reviews_spec t ls rbc rp rl rbc' rp' rl' :
  add_reviews t ls (rbc, rp, rl) = (rbc', rp', rl') ->
  sum_values rbc' =
    (sum_values rbc + Z.of_nat (length (List.filter (fun l => negb (String.eqb l "")) ls)))%Z /\
  (forall u, lookup0 rbc' u = (lookup0 rbc u + login_count u ls)%Z) /\
  (forall u, lookup0 rp' u = (lookup0 rp u + login_count u ls)%Z) /\
  (forall u, lookup0 rl' u = (lookup0 rl u + t * login_count u ls)%Z) /\
  (forall u, In u (map fst rp') <-> In u (map fst rp) \/ (u <> "" /\ In u ls)) /\
  (forall u, In u (map fst rl') <-> In u (map fst rl) \/ (u <> "" /\ In u ls)).
Proof.
  unfold add_reviews, login_count. revert rbc rp rl.
  induction ls as [|x ls IH]; intros rbc rp rl H; cbn [fold_left] in H.
  - injection H as <- <- <-. simpl. repeat split; intros; try lia; intuition.
  - destruct (String.eqb_spec x "") as [->|Hx].
    + simpl in H. destruct (IH _ _ _ H) as (H1 & H2 & H3 & H4 & H5 & H6).
      split; [|split; [|split; [|split; [|split]]]].
      * rewrite H1. reflexivity.
      * intros u. rewrite H2. simpl. by rewrite andb_false_r.
      * intros u. rewrite H3. simpl. by rewrite andb_false_r.
      * intros u. rewrite H4. simpl. by rewrite andb_false_r.
      * intros u. rewrite H5. simpl. split; [intuition|].
        intros [?|[Hu [<-|?]]]; [auto|done|auto].
      * intros u. rewrite H6. simpl. split; [intuition|].
        intros [?|[Hu [<-|?]]]; [auto|done|auto].
    + assert (Hne : String.eqb x "" = false) by (by apply String.eqb_neq).
      destruct (IH _ _ _ H) as (H1 & H2 & H3 & H4 & H5 & H6).
      cbn [List.filter]. rewrite Hne. cbn [negb].
      split; [|split; [|split; [|split; [|split]]]].
      * rewrite H1, sum_values_dict_add. cbn [length]. lia.
      * intros u. rewrite H2, lookup0_dict_add.
        destruct (String.eqb_spec x u) as [<-|Hxu]; cbn [andb length]; lia.
      * intros u. rewrite H3, lookup0_dict_add.
        destruct (String.eqb_spec x u) as [<-|Hxu]; cbn [andb length]; lia.
      * intros u. rewrite H4, lookup0_dict_add.
        destruct (String.eqb_spec x u) as [<-|Hxu]; cbn [andb length]; lia.
      * intros u. rewrite H5, keys_dict_add. simpl. split.
        -- intros [[->|?]|[? ?]]; auto.
        -- intros [?|[Hu [<-|?]]]; auto.
      * intros u. rewrite H6, keys_dict_add. simpl. split.
        -- intros [[->|?]|[? ?]]; auto.
        -- intros [?|[Hu [<-|?]]]; auto.
Qed.

Lemma agg_step_Ok st pr st' :
  agg_step st pr = Ok st' ->
  st_contributions_per_repo st' = dict_add (pr_repo pr) 1 (st_contributions_per_repo st) /\
  map (fun r => (t_user r, t_repo r)) (st_activity_timeline st') =
    (map (fun r => (t_user r, t_repo r)) (st_activity_timeline st) ++ [(pr_author pr, pr_repo pr)])%list /\
  st_opened_prs st' = dict_add (pr_author pr) 1 (st_opened_prs st) /\
  st_authored_loc st' = dict_add (pr_author pr) (e_additions pr) (st_authored_loc st) /\
  st_prs_merged_by_contributor st' =
    (if str_truthy (get (pr_merged_at (e_pr pr)))
     then dict_add (pr_author pr) 1 (st_prs_merged_by_contributor st)
     else st_prs_merged_by_contributor st) /\
  st_high_impact_per_repo st' =
    (if nonempty (e_high_impact_reasons pr)
     then dict_add (pr_repo pr) 1 (st_high_impact_per_repo st)
     else st_high_impact_per_repo st) /\
  map b_bottlenecks (st_bottleneck_prs st') =
    (map b_bottlenecks (st_bottleneck_prs st) ++
     if nonempty (e_bottlenecks pr) then [e_bottlenecks pr] else [])%list /\
  map a_number (st_active_prs st') =
    (map a_number (st_active_prs st) ++
     if open_unmerged (e_pr pr) then [pr_number (e_pr pr)] else [])%list /\
  add_reviews (e_total_changes pr) (e_reviewer_logins pr)
    (st_reviews_by_contributor st, st_reviewed_prs st, st_reviewed_loc st) =
    (st_reviews_by_contributor st', st_reviewed_prs st', st_reviewed_loc st').
Proof.
  unfold agg_step, open_unmerged, pr_author, pr_repo. intros H.
  destruct (negb _ && _) eqn:Hopen; cbn [rbind] in H;
    rbind_inv H; destruct (add_reviews _ _ _) as [[rbc rp] rl] eqn:Ea;
    injection H as <-; cbn -[dict_add add_reviews];
    rewrite !map_app; cbn [map]; rewrite ?Ea;
    (repeat split); try done.
  all: try (by destruct (e_high_impact_reasons pr)).
  all: try (destruct (e_bottlenecks pr); cbn; [by rewrite app_nil_r|by rewrite map_app]).
  all: try (by rewrite app_nil_r).
  rbind_inv E. injection E as <-. by rewrite map_app.
Qed.

Lemma agg_loop_fold {X} (f : agg_state -> X) (g : X -> enriched -> X) prs st st' :
  agg_loop st prs = Ok st' ->
  (forall s pr s', agg_step s pr = Ok s' -> f s' = g (f s) pr) ->
  f st' = fold_left g prs (f st).
Proof.
  intros H Hstep. revert st st' H. induction prs as [|pr prs IH]; intros st st' H; simpl in H.
  - by injection H as <-.
  - destruct (agg_step st pr) as [s1|] eqn:E; simpl in H; [|discriminate].
    rewrite (IH _ _ H). simpl. by rewrite (Hstep _ _ _ E).
Qed.

Lemma agg_loop_iff (P : agg_state -> Prop) (Q : enriched -> Prop) prs st st' :
  agg_loop st prs = Ok st' ->
  (forall s pr s', agg_step s pr = Ok s' -> (P s' <-> P s \/ Q pr)) ->
  (P st' <-> P st \/ exists pr, In pr prs /\ Q pr).
Proof.
  intros H Hstep. revert st st' H. induction prs as [|pr prs IH]; intros st st' H; simpl in H.
  - injection H as <-. split; [tauto|]. intros [?|(? & [] & _)]; done.
  - destruct (agg_step st pr) as [s1|] eqn:E; simpl in H; [|discriminate].
    rewrite (IH _ _ H), (Hstep _ _ _ E). simpl. split.
    + intros [[?|?]|(q & ? & ?)]; eauto.
    + intros [?|(q & [<-|?] & ?)]; eauto.
Qed.

Lemma fold_left_sum {A} (h : A -> Z) l z :
  fold_left (fun a x => (a + h x)%Z) l z = (z + sum_over h l)%Z.
Proof.
  revert z. induction l as [|x l IH]; intros z; simpl; [lia|]. rewrite IH. lia.
Qed.

Lemma fold_left_app_flat {A B} (k : A -> list B) l acc :
  fold_left (fun a x => (a ++ k x)%list) l acc = (acc ++ flat_map k l)%list.
Proof.
  revert acc. induction l as [|x l IH]; intros acc; simpl; [by rewrite app_nil_r|].
  by rewrite IH, app_assoc.
Qed.

Lemma flat_map_when {A B} (b : A -> bool) (h : A -> B) l :
  flat_map (fun x => if b x then [h x] else []) l = map h (List.filter b l).
Proof. induction l as [|x l IH]; simpl; [done|]. destruct (b x); simpl; by rewrite IH. Qed.

Lemma sum_over_count {A} (b : A -> bool) l :
  sum_over (fun x => if b x then 1%Z else 0%Z) l = Z.of_nat (length (List.filter b l)).
Proof.
  induction l as [|x l IH]; unfold sum_over in *; simpl; [done|].
  rewrite IH. destruct (b x); simpl; lia.
Qed.

Lemma compute_aggregations_Ok all_prs s :
  compute_aggregations all_prs = Ok s ->
  exists st, agg_loop agg_init all_prs = Ok st /\
    contributions_per_repo s = st_contributions_per_repo st /\
    activity_timeline s = st_activity_timeline st /\
    prs_merged_by_contributor s = st_prs_merged_by_contributor st /\
    high_impact_per_repo s = st_high_impact_per_repo st /\
    bottleneck_prs s = st_bottleneck_prs st /\
    active_prs s = st_active_prs st /\
    reviews_by_contributor s = st_reviews_by_contributor st /\
    burnout_risk s = detect_burnout (st_authored_loc st) /\
    per_contributor s =
      set_to_map (fun user =>
        (user, {| w_opened_prs := lookup0 (st_opened_prs st) user;
                  w_reviewed_prs := lookup0 (st_reviewed_prs st) user;
                  w_authored_loc := lookup0 (st_authored_loc st) user;
                  w_reviewed_loc := lookup0 (st_reviewed_loc st) user |}))
        (keys_set (st_opened_prs st) ∪ keys_set (st_reviewed_prs st) ∪
         keys_set (st_authored_loc st) ∪ keys_set (st_reviewed_loc st)).
Proof.
  unfold compute_aggregations. intros H. rbind_inv H. injection H as <-.
  eexists. split; [reflexivity|]. repeat split.
Qed.

(** compute_aggregations counts every PR once: the contributions per
    repository add up to the number of PRs, the timeline has one row per
    PR (author and repository, in order), the merged counts add up to the
    number of PRs with a truthy merged_at, the high-impact counts to the
    number of PRs with a reason, the bottleneck table lists the non-empty
    bottleneck lists in order, the active PRs are the open unmerged ones
    in order, and the review counts add up to the non-empty reviewer
    logins. *)
Theorem compute_aggregations_counts all_prs s :
  compute_aggregations all_prs = Ok s ->
  sum_values (contributions_per_repo s) = Z.of_nat (length all_prs) /\
  map (fun r => (t_user r, t_repo r)) (activity_timeline s) =
    map (fun e => (pr_author e, pr_repo e)) all_prs /\
  sum_values (prs_merged_by_contributor s) =
    Z.of_nat (length (List.filter (fun e => str_truthy (get (pr_merged_at (e_pr e)))) all_prs)) /\
  sum_values (high_impact_per_repo s) =
    Z.of_nat (length (List.filter (fun e => nonempty (e_high_impact_reasons e)) all_prs)) /\
  map b_bottlenecks (bottleneck_prs s) = List.filter nonempty (map e_bottlenecks all_prs) /\
  map a_number (active_prs s) =
    map (fun e => pr_number (e_pr e)) (List.filter (fun e => open_unmerged (e_pr e)) all_prs) /\
  sum_values (reviews_by_contributor s) =
    sum_over (fun e => Z.of_nat (length (List.filter (fun l => negb (String.eqb l "")) (e_reviewer_logins e))))
      all_prs.
Proof.
  intros H. destruct (compute_aggregations_Ok _ _ H)
    as (st & Hl & -> & -> & -> & -> & -> & -> & -> & _).
  split; [|split; [|split; [|split; [|split; [|split]]]]].
  - rewrite (agg_loop_fold (fun s => sum_values (st_contributions_per_repo s))
               (fun a _ => (a + 1)%Z) _ _ _ Hl).
    + rewrite (fold_left_sum (fun _ => 1%Z)). simpl.
      clear. induction all_prs; unfold sum_over in *; simpl; lia.
    + intros s0 pr s1 E. destruct (agg_step_Ok _ _ _ E) as (-> & _).
      apply sum_values_dict_add.
  - rewrite (agg_loop_fold (fun s => map (fun r => (t_user r, t_repo r)) (st_activity_timeline s))
               (fun a e => a ++ [(pr_author e, pr_repo e)])%list _ _ _ Hl).
    + rewrite fold_left_app_flat. simpl. clear. induction all_prs; simpl; congruence.
    + intros s0 pr s1 E. by destruct (agg_step_Ok _ _ _ E) as (_ & -> & _).
  - rewrite (agg_loop_fold (fun s => sum_values (st_prs_merged_by_contributor s))
               (fun a e => a + if str_truthy (get (pr_merged_at (e_pr e))) then 1 else 0)%Z
      all_prs _ _ Hl).
    + rewrite (fold_left_sum (fun e => if str_truthy (get (pr_merged_at (e_pr e))) then 1 else 0)%Z).
      rewrite sum_over_count. done.
    + intros s0 pr s1 E. destruct (agg_step_Ok _ _ _ E) as (_ & _ & _ & _ & -> & _).
      destruct (str_truthy _); [apply sum_values_dict_add|lia].
  - rewrite (agg_loop_fold (fun s => sum_values (st_high_impact_per_repo s))
               (fun a e => a + if nonempty (e_high_impact_reasons e) then 1 else 0)%Z
      all_prs _ _ Hl).
    + rewrite (fold_left_sum (fun e => if nonempty (e_high_impact_reasons e) then 1 else 0)%Z).
      rewrite sum_over_count. done.
    + intros s0 pr s1 E. destruct (agg_step_Ok _ _ _ E) as (_ & _ & _ & _ & _ & -> & _).
      destruct (nonempty _); [apply sum_values_dict_add|lia].
  - rewrite (agg_loop_fold (fun s => map b_bottlenecks (st_bottleneck_prs s))
               (fun a e => a ++ if nonempty (e_bottlenecks e) then [e_bottlenecks e] else [])%list
      all_prs _ _ Hl).
    + rewrite fold_left_app_flat. simpl. clear.
      induction all_prs as [|e l IH]; simpl; [done|]. destruct (e_bottlenecks e); simpl; congruence.
    + intros s0 pr s1 E. by destruct (agg_step_Ok _ _ _ E) as (_ & _ & _ & _ & _ & _ & -> & _).
  - rewrite (agg_loop_fold (fun s => map a_number (st_active_prs s))
               (fun a e => a ++ if open_unmerged (e_pr e) then [pr_number (e_pr e)] else [])%list
      all_prs _ _ Hl).
    + rewrite fold_left_app_flat, (flat_map_when (fun e => open_unmerged (e_pr e))). done.
    + intros s0 pr s1 E. by destruct (agg_step_Ok _ _ _ E) as (_ & _ & _ & _ & _ & _ & _ & -> & _).
  - rewrite (agg_loop_fold (fun s => sum_values (st_reviews_by_contributor s))
               (fun a e => a + Z.of_nat (length (List.filter (fun l => negb (String.eqb l ""))
                                                   (e_reviewer_logins e))))%Z
      all_prs _ _ Hl).
    + rewrite fold_left_sum. done.
    + intros s0 pr s1 E. destruct (agg_step_Ok _ _ _ E) as (_ & _ & _ & _ & _ & _ & _ & _ & Ea).
      exact (proj1 (add_reviews_spec _ _ _ _ _ _ _ _ Ea)).
Qed.

Lemma agg_loop_lookup0 (field : agg_state -> list (string * Z)) (h : string -> enriched -> Z)
    prs st' u :
  agg_loop agg_init prs = Ok st' ->
  field agg_init = [] ->
  (forall s pr s', agg_step s pr = Ok s' ->
     lookup0 (field s') u = (lookup0 (field s) u + h u pr)%Z) ->
  lookup0 (field st') u = sum_over (h u) prs.
Proof.
  intros Hl H0 Hstep.
  rewrite (agg_loop_fold (fun s => lookup0 (field s) u) (fun a e => a + h u e)%Z _ _ _ Hl Hstep).
  rewrite fold_left_sum, H0. reflexivity.
Qed.

Lemma agg_loop_keys (field : agg_state -> list (string * Z)) (Q : string -> enriched -> Prop)
    prs st' u :
  agg_loop agg_init prs = Ok st' ->
  field agg_init = [] ->
  (forall s pr s', agg_step s pr = Ok s' ->
     (In u (map fst (field s')) <-> In u (map fst (field s)) \/ Q u pr)) ->
  (In u (map fst (field st')) <-> exists pr, In pr prs /\ Q u pr).
Proof.
  intros Hl H0 Hstep.
  rewrite (agg_loop_iff (fun s => In u (map fst (field s))) (Q u) _ _ _ Hl Hstep), H0.
  simpl. tauto.
Qed.

(** The workload table has a row exactly for each PR author and each
    non-empty reviewer login; the row of a user holds the number of PRs
    they opened, the additions of those PRs, the number of reviewer
    entries that name them and the total changes of the PRs they
    reviewed (counted once per entry). *)
Theorem compute_aggregations_per_contributor all_prs s :
  compute_aggregations all_prs = Ok s ->
  forall u row,
    per_contributor s !! u = Some row <->
    ((exists e, In e all_prs /\ pr_author e = u) \/
     (u <> "" /\ exists e, In e all_prs /\ In u (e_reviewer_logins e))) /\
    row = {| w_opened_prs := sum_over (fun e => if String.eqb (pr_author e) u then 1 else 0)%Z all_prs;
             w_reviewed_prs := sum_over (fun e => login_count u (e_reviewer_logins e)) all_prs;
             w_authored_loc :=
               sum_over (fun e => if String.eqb (pr_author e) u then e_additions e else 0)%Z all_prs;
             w_reviewed_loc :=
               sum_over (fun e => e_total_changes e * login_count u (e_reviewer_logins e))%Z all_prs |}.
Proof.
  intros H u row. destruct (compute_aggregations_Ok _ _ H)
    as (st & Hl & _ & _ & _ & _ & _ & _ & _ & _ & ->).
  (* the four measures *)
  assert (Lo : lookup0 (st_opened_prs st) u =
               sum_over (fun e => if String.eqb (pr_author e) u then 1 else 0)%Z all_prs).
  { apply (agg_loop_lookup0 st_opened_prs (fun u e => if String.eqb (pr_author e) u then 1 else 0)%Z
             _ _ u Hl eq_refl).
    intros s0 pr s1 E. destruct (agg_step_Ok _ _ _ E) as (_ & _ & -> & _).
    apply lookup0_dict_add. }
  assert (La : lookup0 (st_authored_loc st) u =
               sum_over (fun e => if String.eqb (pr_author e) u then e_additions e else 0)%Z all_prs).
  { apply (agg_loop_lookup0 st_authored_loc
             (fun u e => if String.eqb (pr_author e) u then e_additions e else 0)%Z
             _ _ u Hl eq_refl).
    intros s0 pr s1 E. destruct (agg_step_Ok _ _ _ E) as (_ & _ & _ & -> & _).
    apply lookup0_dict_add. }
  assert (Lp : lookup0 (st_reviewed_prs st) u =
               sum_over (fun e => login_count u (e_reviewer_logins e)) all_prs).
  { apply (agg_loop_lookup0 st_reviewed_prs (fun u e => login_count u (e_reviewer_logins e))
             _ _ u Hl eq_refl).
    intros s0 pr s1 E. destruct (agg_step_Ok _ _ _ E) as (_ & _ & _ & _ & _ & _ & _ & _ & Ea).
    exact (proj1 (proj2 (proj2 (add_reviews_spec _ _ _ _ _ _ _ _ Ea))) u). }
  assert (Lr : lookup0 (st_reviewed_loc st) u =
               sum_over (fun e => e_total_changes e * login_count u (e_reviewer_logins e))%Z all_prs).
  { apply (agg_loop_lookup0 st_reviewed_loc
             (fun u e => e_total_changes e * login_count u (e_reviewer_logins e))%Z
             _ _ u Hl eq_refl).
    intros s0 pr s1 E. destruct (agg_step_Ok _ _ _ E) as (_ & _ & _ & _ & _ & _ & _ & _ & Ea).
    exact (proj1 (proj2 (proj2 (proj2 (add_reviews_spec _ _ _ _ _ _ _ _ Ea)))) u). }
  (* the four key sets *)
  assert (Ho : In u (map fst (st_opened_prs st)) <-> exists e, In e all_prs /\ pr_author e = u).
  { apply (agg_loop_keys st_opened_prs (fun u e => pr_author e = u) _ _ u Hl eq_refl).
    intros s0 pr s1 E. destruct (agg_step_Ok _ _ _ E) as (_ & _ & -> & _).
    rewrite keys_dict_add. intuition. }
  assert (Ha : In u (map fst (st_authored_loc st)) <-> exists e, In e all_prs /\ pr_author e = u).
  { apply (agg_loop_keys st_authored_loc (fun u e => pr_author e = u) _ _ u Hl eq_refl).
    intros s0 pr s1 E. destruct (agg_step_Ok _ _ _ E) as (_ & _ & _ & -> & _).
    rewrite keys_dict_add. intuition. }
  assert (Hp : In u (map fst (st_reviewed_prs st)) <->
               exists e, In e all_prs /\ (u <> "" /\ In u (e_reviewer_logins e))).
  { apply (agg_loop_keys st_reviewed_prs (fun u e => u <> "" /\ In u (e_reviewer_logins e))
             _ _ u Hl eq_refl).
    intros s0 pr s1 E. destruct (agg_step_Ok _ _ _ E) as (_ & _ & _ & _ & _ & _ & _ & _ & Ea).
    exact (proj1 (proj2 (proj2 (proj2 (proj2 (add_reviews_spec _ _ _ _ _ _ _ _ Ea))))) u). }
  assert (Hr : In u (map fst (st_reviewed_loc st)) <->
               exists e, In e all_prs /\ (u <> "" /\ In u (e_reviewer_logins e))).
  { apply (agg_loop_keys st_reviewed_loc (fun u e => u <> "" /\ In u (e_reviewer_logins e))
             _ _ u Hl eq_refl).
    intros s0 pr s1 E. destruct (agg_step_Ok _ _ _ E) as (_ & _ & _ & _ & _ & _ & _ & _ & Ea).
    exact (proj2 (proj2 (proj2 (proj2 (proj2 (add_reviews_spec _ _ _ _ _ _ _ _ Ea))))) u). }
  assert (Hin : u ∈ keys_set (st_opened_prs st) ∪ keys_set (st_reviewed_prs st) ∪
                    keys_set (st_authored_loc st) ∪ keys_set (st_reviewed_loc st) <->
                ((exists e, In e all_prs /\ pr_author e = u) \/
                 (u <> "" /\ exists e, In e all_prs /\ In u (e_reviewer_logins e)))).
  { unfold keys_set. rewrite !elem_of_union, !elem_of_list_to_set, !list_elem_of_In.
    rewrite Ho, Ha, Hp, Hr. split.
    - intros [[[?|(e & ? & ? & ?)]|?]|(e & ? & ? & ?)]; eauto.
    - intros [?|(? & e & ? & ?)]; eauto. }
  rewrite lookup_set_to_map; [|by intros y y' _ _].
  split.
  - intros (y & Hy & Heq). injection Heq as -> <-.
    split; [by apply Hin|by rewrite Lo, La, Lp, Lr].
  - intros [Hu ->]. exists u. split; [by apply Hin|by rewrite Lo, La, Lp, Lr].
Qed.

Lemma sum_values_perm (l l' : list (string * Z)) :
  Permutation l l' -> sum_values l = sum_values l'.
Proof. unfold sum_values. induction 1; simpl; lia. Qed.

Lemma sum_values_filter_firstn (p : string * Z -> bool) n (l : list (string * Z)) :
  (forall kv, In kv l -> (0 <= snd kv)%Z) ->
  (sum_values (List.filter p (firstn n l)) <= sum_values l)%Z.
Proof.
  revert n. induction l as [|kv l IH]; intros n Hnn; destruct n; unfold sum_values in *; simpl.
  - lia.
  - lia.
  - pose proof (Hnn kv (or_introl eq_refl)).
    assert (0 <= fold_right (fun kv s => (snd kv + s)%Z) 0%Z l)%Z.
    { clear - Hnn. induction l as [|x l IHl]; simpl; [lia|].
      assert (0 <= snd x)%Z by (apply Hnn; simpl; auto).
      assert (0 <= fold_right (fun kv s => (snd kv + s)%Z) 0%Z l)%Z; [|lia].
      apply IHl. intros y [<-|Hy]; apply Hnn; simpl; auto. }
    lia.
  - pose proof (Hnn kv (or_introl eq_refl)).
    pose proof (IH n (fun y Hy => Hnn y (or_intror Hy))).
    destruct (p kv); simpl; lia.
Qed.

Lemma sum_values_lower (c : Z) (l : list (string * Z)) :
  (forall kv, In kv l -> (c <= 5 * snd kv)%Z) ->
  (c * Z.of_nat (length l) <= 5 * sum_values l)%Z.
Proof.
  unfold sum_values. induction l as [|kv l IH]; intros H; simpl; [lia|].
  pose proof (H kv (or_introl eq_refl)).
  pose proof (IH (fun y Hy => H y (or_intror Hy))). lia.
Qed.

(** With non-negative authored LOC, detect_burnout flags at most two
    contributors, each a key of the table: each flagged one has at least
    40% of the total. *)
Theorem detect_burnout_at_most_two (t : list (string * Z)) :
  (forall kv, In kv t -> (0 <= snd kv)%Z) ->
  (length (detect_burnout t) <= 2)%nat /\
  forall u, In u (detect_burnout t) -> In u (map fst t).
Proof.
  intros Hnn. unfold detect_burnout.
  destruct t as [|kv t']; [simpl; split; [lia|done]|].
  set (t := kv :: t') in *.
  destruct (Z.eqb_spec (sum_values t) 0) as [|Hz]; [simpl; split; [lia|done]|].
  set (T := sum_values t).
  set (F := List.filter (fun uw => share_ge_40 (snd uw) T)
              (firstn (top_count (length (sort_desc t))) (sort_desc t))).
  assert (Hnn' : forall kv, In kv (sort_desc t) -> (0 <= snd kv)%Z).
  { intros y Hy. apply Hnn. eapply Permutation_in; [apply sort_desc_perm|exact Hy]. }
  assert (HT : (0 < T)%Z).
  { assert (0 <= T)%Z; [|lia].
    pose proof (sum_values_filter_firstn (fun _ => false) 0 t Hnn). simpl in *. lia. }
  split.
  - rewrite length_map. fold F.
    assert (Hup : (sum_values F <= T)%Z).
    { unfold F, T. rewrite <- (sum_values_perm _ _ (sort_desc_perm t)).
      by apply sum_values_filter_firstn. }
    assert (Hlo : (2 * T * Z.of_nat (length F) <= 5 * sum_values F)%Z).
    { apply sum_values_lower. intros y Hy. unfold F in Hy.
      apply filter_In in Hy as [_ Hs]. by apply share_ge_40_iff. }
    nia.
  - intros u Hu. apply in_map_iff in Hu as [[u' w] [Hu Hin]]. simpl in Hu. subst u'.
    apply filter_In in Hin as [Hin _].
    apply (in_map fst t (u, w)). eapply Permutation_in; [apply sort_desc_perm|].
    rewrite <- (firstn_skipn (top_count (length (sort_desc t))) (sort_desc t)).
    apply in_or_app. by left.
Qed.

(** After a request returns a summary, the cache holds that summary
    under the request's key with a time less than 600 s before the
    request's clock, every other entry is unchanged, and any later request
    for a permutation of the same repositories and window, made less than
    600 s after that time, returns the same summary and cache, whatever
    the API and the clock's date. *)
Theorem get_insights_round_trip (fi : string -> option datetime) (w : world) (clock : Q)
    (now : datetime) (cache cache1 : gmap cache_key cache_entry) (repos : list string) (days : Z)
    (s : summary) :
  get_insights fi w clock now cache repos days = (cache1, Ok s) ->
  exists t,
    cache1 !! make_cache_key repos days = Some {| c_time := t; c_data := s |} /\
    (clock - t < CACHE_TTL_SECONDS)%Q /\
    (forall k, k <> make_cache_key repos days -> cache1 !! k = cache !! k) /\
    (forall fi' w' clock' now' repos', Permutation repos repos' ->
       (clock' - t < CACHE_TTL_SECONDS)%Q ->
       get_insights fi' w' clock' now' cache1 repos' days = (cache1, Ok s)).
Proof.
  intros H.
  assert (Hhit : forall t, cache1 !! make_cache_key repos days = Some {| c_time := t; c_data := s |} ->
            forall fi' w' clock' now' repos', Permutation repos repos' ->
            (clock' - t < CACHE_TTL_SECONDS)%Q ->
            get_insights fi' w' clock' now' cache1 repos' days = (cache1, Ok s)).
  { intros t Ht fi' w' clock' now' repos' Hp Hf. unfold get_insights.
    rewrite <- (make_cache_key_perm _ _ days Hp), Ht. cbn [c_time c_data].
    destruct (Qlt_le_dec (clock' - t) CACHE_TTL_SECONDS) as [_|Hle]; [done|].
    exfalso. exact (Qlt_not_le _ _ Hf Hle). }
  unfold get_insights in H.
  destruct (cache !! make_cache_key repos days) as [e|] eqn:He.
  - destruct (Qlt_le_dec (clock - c_time e) CACHE_TTL_SECONDS) as [Hlt|Hle].
    + injection H as <- <-. exists (c_time e). destruct e as [t d]. cbn in *.
      split; [done|]. split; [done|]. split; [done|]. by apply Hhit.
    + destruct (compute_insights fi w now repos days) as [r|ex]; [|discriminate].
      injection H as <- <-. exists clock.
      assert (Hk : <[make_cache_key repos days:={| c_time := clock; c_data := r |}]> cache
                     !! make_cache_key repos days = Some {| c_time := clock; c_data := r |})
        by apply lookup_insert_eq.
      split; [exact Hk|]. split; [unfold CACHE_TTL_SECONDS; ring_simplify; lra|].
      split; [|by apply Hhit].
      intros k Hne. by apply lookup_insert_ne.
  - destruct (compute_insights fi w now repos days) as [r|ex]; [|discriminate].
    injection H as <- <-. exists clock.
    assert (Hk : <[make_cache_key repos days:={| c_time := clock; c_data := r |}]> cache
                   !! make_cache_key repos days = Some {| c_time := clock; c_data := r |})
      by apply lookup_insert_eq.
    split; [exact Hk|]. split; [unfold CACHE_TTL_SECONDS; ring_simplify; lra|].
    split; [|by apply Hhit].
    intros k Hne. by apply lookup_insert_ne.
Qed.

(** process_single_pr raises TransportError when the details or the
    reviews request raises, and TypeError when the details answer 200 with
    a null additions or deletions count. *)
Theorem process_single_pr_fetch_errors fi pr dout rout :
  ((dout = Transport_failure \/ rout = Transport_failure) ->
   process_single_pr fi pr dout rout = Raise TransportError) /\
  (forall d, dout = Response 200 (Some d) -> rout <> Transport_failure ->
   d_additions d = Null \/ (d_additions d <> Null /\ d_deletions d = Null) ->
   process_single_pr fi pr dout rout = Raise TypeError).
Proof.
  unfold process_single_pr. split.
  - intros [->| ->]; [done|]. destruct dout as [|st b]; [done|]. simpl. by destruct (negb _), b.
  - intros d -> Hr Hnull. cbn [fetch_pr_details negb Z.eqb rbind].
    destruct (fetch_pr_reviews rout) as [reviews|ex] eqn:Er.
    2: { destruct rout as [|st b]; [congruence|]. simpl in Er. destruct (negb _), b; discriminate. }
    cbn [rbind]. unfold extract_pr_size.
    simpl. destruct Hnull as [-> | [Ha ->]]; [done|]. by destruct (d_additions d).
Qed.

Lemma size_list_to_set_le {A} `{Countable A} (l : list A) :
  (size (list_to_set l : gset A) <= length l)%nat.
Proof.
  induction l as [|x l IH]; cbn [list_to_set length]; [rewrite size_empty; lia|].
  rewrite size_union_alt, size_singleton.
  assert (size (list_to_set l ∖ {[x]} : gset A) <= size (list_to_set l : gset A))%nat; [|lia].
  apply subseteq_size. set_solver.
Qed.

(** calculate_reviewer_metrics counts are non-negative; the commenter
    count is at most the number of reviews with a truthy user and the
    approval count at most the number of reviews. *)
Theorem calculate_reviewer_metrics_bounds pr reviews m :
  calculate_reviewer_metrics pr reviews = Ok m ->
  (0 <= reviewers_commented m <= Z.of_nat (length (List.filter review_has_user reviews)))%Z /\
  (0 <= approvals m <= Z.of_nat (length reviews))%Z /\
  (0 <= reviewers_requested m)%Z.
Proof.
  intros H. pose proof (calculate_reviewer_metrics_Ok _ _ _ H) as [Hc Ha].
  unfold calculate_reviewer_metrics in H.
  destruct (pr_requested_reviewers pr); simpl in H; try discriminate; injection H as <-;
  cbn [reviewers_commented approvals reviewers_requested] in *;
  (split; [|split]); try lia;
  try (pose proof (filter_length_le (fun r => is_approved r) reviews); lia);
  (split; [lia|]); apply inj_le;
  unfold commented_set; (etransitivity; [apply size_list_to_set_le|]);
  rewrite length_map; reflexivity.
Qed.

(** Instance of [filter_prs_by_date_kept]: a feed of one PR created ten days before [now_sample], a window of 30 days. *)
Lemma filter_prs_by_date_kept_witness :
  filter_prs_by_date iso_subset now_sample [pr_sample] 30 = Ok [pr_sample] /\
  sublist [pr_sample] [pr_sample] /\
  forall pr, In pr [pr_sample] -> exists d, created_ts iso_subset pr = Some d /\
    dt_aware d = dt_aware now_sample /\ (dt_us now_sample - 30 * US_PER_DAY <= dt_us d)%Z.
Proof.
  assert (H : filter_prs_by_date iso_subset now_sample [pr_sample] 30 =
              Ok [pr_sample]) by (vm_compute; reflexivity).
  split; [exact H|]. exact (filter_prs_by_date_kept _ _ _ _ _ H).
Defined.

(** Instance of [collect_prs_cap]: acme/widgets, invalidrepo and acme/gadgets (the last answers 404). *)
Lemma collect_prs_cap_witness :
  exists all,
    collect_prs iso_subset world_sample now_sample 30 ["acme/widgets"; "invalidrepo"; "acme/gadgets"] = Ok all /\
    (length all <= MAX_PRS_PER_REPO *
       length (List.filter (contains_char "/") ["acme/widgets"; "invalidrepo"; "acme/gadgets"]))%nat.
Proof.
  destruct (collect_prs iso_subset world_sample now_sample 30 ["acme/widgets"; "invalidrepo"; "acme/gadgets"])
    as [all|ex] eqn:E.
  - exists all. split; [done|]. exact (collect_prs_cap _ _ _ _ _ _ E).
  - vm_compute in E. discriminate.
Defined.

(** Instance of [calculate_review_time_earliest]: two reviews submitted one day after creation. *)
Lemma calculate_review_time_earliest_witness :
  exists h,
    calculate_review_time_from_reviews iso_subset (Some "2024-06-20T00:00:00Z")
      [approved_review_sample; lowercase_review_sample] = Ok (Some h) /\
    exists c, Some "2024-06-20T00:00:00Z" ≫= parse_ts iso_subset = Some c /\
    (forall r, In r [approved_review_sample; lowercase_review_sample] -> exists s d,
       r_submitted_at r = Val s /\ parse_ts iso_subset s = Some d /\ dt_aware d = dt_aware c /\
       (h <= (dt_us d - dt_us c)%Z # US_PER_HOUR)%Q) /\
    (exists r s d, In r [approved_review_sample; lowercase_review_sample] /\
       r_submitted_at r = Val s /\ parse_ts iso_subset s = Some d /\
       h = (dt_us d - dt_us c)%Z # US_PER_HOUR).
Proof.
  destruct (calculate_review_time_from_reviews iso_subset (Some "2024-06-20T00:00:00Z")
              [approved_review_sample; lowercase_review_sample]) as [[h|]|ex] eqn:E.
  - exists h. split; [done|]. exact (calculate_review_time_earliest _ _ _ _ E).
  - vm_compute in E. discriminate.
  - vm_compute in E. discriminate.
Defined.

(** Instance of [calculate_review_time_unparsed_submission]: a review submitted at "yesterday". *)
Lemma calculate_review_time_unparsed_submission_witness :
  In {| r_user := Val author_sample; r_state := Val "COMMENTED"; r_submitted_at := Val "yesterday" |}
     [approved_review_sample;
      {| r_user := Val author_sample; r_state := Val "COMMENTED"; r_submitted_at := Val "yesterday" |}] /\
  parse_ts iso_subset "yesterday" = None /\
  calculate_review_time_from_reviews iso_subset (Some "2024-06-20T00:00:00Z")
    [approved_review_sample;
     {| r_user := Val author_sample; r_state := Val "COMMENTED"; r_submitted_at := Val "yesterday" |}] = Ok None.
Proof.
  assert (Hin : In {| r_user := Val author_sample; r_state := Val "COMMENTED"; r_submitted_at := Val "yesterday" |}
     [approved_review_sample;
      {| r_user := Val author_sample; r_state := Val "COMMENTED"; r_submitted_at := Val "yesterday" |}])
    by (simpl; auto).
  assert (Hp : parse_ts iso_subset "yesterday" = None) by (vm_compute; reflexivity).
  split; [exact Hin|]. split; [exact Hp|].
  exact (calculate_review_time_unparsed_submission _ _ _ _ Hin Hp).
Defined.

(** Instance of [process_single_pr_reviewer_logins]: the sample PR with one approving review by bob. *)
Lemma process_single_pr_reviewer_logins_witness :
  exists e,
    process_single_pr iso_subset pr_sample (w_details world_sample "acme" "widgets" 7)
      (w_reviews world_sample "acme" "widgets" 7) = Ok e /\
    exists reviews, fetch_pr_reviews (w_reviews world_sample "acme" "widgets" 7) = Ok reviews /\
      NoDup (e_reviewer_logins e) /\
      (forall l, In l (e_reviewer_logins e) <->
         l <> "" /\ exists r, In r reviews /\ review_has_user r = true /\ review_login r = Some l) /\
      (Z.of_nat (length (e_reviewer_logins e)) <= e_reviewers_commented e)%Z.
Proof.
  destruct (process_single_pr iso_subset pr_sample (w_details world_sample "acme" "widgets" 7)
              (w_reviews world_sample "acme" "widgets" 7)) as [e|ex] eqn:E.
  - exists e. split; [done|]. exact (process_single_pr_reviewer_logins _ _ _ _ _ E).
  - vm_compute in E. discriminate.
Defined.

(** Instance of [median_or_none_in_range]: [1, None, 3]. *)
Lemma median_or_none_in_range_witness :
  exists m, median_or_none [Some 1%Q; None; Some 3%Q] = Some m /\
    exists a b, In (Some a) [Some 1%Q; None; Some 3%Q] /\ In (Some b) [Some 1%Q; None; Some 3%Q] /\
                (a <= m <= b)%Q.
Proof.
  destruct (median_or_none [Some 1%Q; None; Some 3%Q]) as [m|] eqn:E.
  - exists m. split; [done|]. exact (median_or_none_in_range _ _ E).
  - vm_compute in E. discriminate.
Defined.

(** Instance of [compute_impact_score_processed]: the sample PR (600 changed lines). *)
Lemma compute_impact_score_processed_witness :
  exists e,
    process_single_pr iso_subset pr_sample (w_details world_sample "acme" "widgets" 7)
      (w_reviews world_sample "acme" "widgets" 7) = Ok e /\
    (compute_impact_score e = 0%Z <-> e_total_changes e = 0%Z) /\
    ((0 <= e_total_changes e)%Z -> (e_total_changes e <= compute_impact_score e)%Z).
Proof.
  destruct (process_single_pr iso_subset pr_sample (w_details world_sample "acme" "widgets" 7)
              (w_reviews world_sample "acme" "widgets" 7)) as [e|ex] eqn:E.
  - exists e. split; [done|]. exact (compute_impact_score_processed _ _ _ _ _ E).
  - vm_compute in E. discriminate.
Defined.

(** Instance of [compute_aggregations_counts]: the PRs of acme/widgets in [world_sample]. *)
Lemma compute_aggregations_counts_witness :
  exists all s,
    collect_prs iso_subset world_sample now_sample 30 ["acme/widgets"] = Ok all /\
    compute_aggregations all = Ok s /\
    sum_values (contributions_per_repo s) = Z.of_nat (length all) /\
    map (fun r => (t_user r, t_repo r)) (activity_timeline s) =
      map (fun e => (pr_author e, pr_repo e)) all /\
    sum_values (prs_merged_by_contributor s) =
      Z.of_nat (length (List.filter (fun e => str_truthy (get (pr_merged_at (e_pr e)))) all)) /\
    sum_values (high_impact_per_repo s) =
      Z.of_nat (length (List.filter (fun e => nonempty (e_high_impact_reasons e)) all)) /\
    map b_bottlenecks (bottleneck_prs s) = List.filter nonempty (map e_bottlenecks all) /\
    map a_number (active_prs s) =
      map (fun e => pr_number (e_pr e)) (List.filter (fun e => open_unmerged (e_pr e)) all) /\
    sum_values (reviews_by_contributor s) =
      sum_over (fun e => Z.of_nat (length (List.filter (fun l => negb (String.eqb l "")) (e_reviewer_logins e))))
        all.
Proof.
  destruct (collect_prs iso_subset world_sample now_sample 30 ["acme/widgets"]) as [all|ex] eqn:E;
    [|vm_compute in E; discriminate].
  destruct (compute_aggregations all) as [s|ex] eqn:F.
  - exists all, s. split; [done|]. split; [done|]. exact (compute_aggregations_counts _ _ F).
  - assert (Hok : is_ok (rbind (collect_prs iso_subset world_sample now_sample 30 ["acme/widgets"])
                            compute_aggregations) = true) by (vm_compute; reflexivity).
    rewrite E in Hok. simpl in Hok. rewrite F in Hok. discriminate.
Defined.

(** Instance of [compute_aggregations_per_contributor]: the PRs of acme/widgets in [world_sample]. *)
Lemma compute_aggregations_per_contributor_witness :
  exists all s,
    collect_prs iso_subset world_sample now_sample 30 ["acme/widgets"] = Ok all /\
    compute_aggregations all = Ok s /\
    forall u row,
      per_contributor s !! u = Some row <->
      ((exists e, In e all /\ pr_author e = u) \/
       (u <> "" /\ exists e, In e all /\ In u (e_reviewer_logins e))) /\
      row = {| w_opened_prs := sum_over (fun e => if String.eqb (pr_author e) u then 1 else 0)%Z all;
               w_reviewed_prs := sum_over (fun e => login_count u (e_reviewer_logins e)) all;
               w_authored_loc :=
                 sum_over (fun e => if String.eqb (pr_author e) u then e_additions e else 0)%Z all;
               w_reviewed_loc :=
                 sum_over (fun e => e_total_changes e * login_count u (e_reviewer_logins e))%Z all |}.
Proof.
  destruct (collect_prs iso_subset world_sample now_sample 30 ["acme/widgets"]) as [all|ex] eqn:E;
    [|vm_compute in E; discriminate].
  destruct (compute_aggregations all) as [s|ex] eqn:F.
  - exists all, s. split; [done|]. split; [done|]. exact (compute_aggregations_per_contributor _ _ F).
  - assert (Hok : is_ok (rbind (collect_prs iso_subset world_sample now_sample 30 ["acme/widgets"])
                            compute_aggregations) = true) by (vm_compute; reflexivity).
    rewrite E in Hok. simpl in Hok. rewrite F in Hok. discriminate.
Defined.

(** Instance of [detect_burnout_at_most_two]: alice 600 and bob 40 authored lines. *)
Lemma detect_burnout_at_most_two_witness :
  (forall kv, In kv [("alice", 600%Z); ("bob", 40%Z)] -> (0 <= snd kv)%Z) /\
  (length (detect_burnout [("alice", 600%Z); ("bob", 40%Z)]) <= 2)%nat /\
  forall u, In u (detect_burnout [("alice", 600%Z); ("bob", 40%Z)]) ->
            In u (map fst [("alice", 600%Z); ("bob", 40%Z)]).
Proof.
  assert (H : forall kv, In kv [("alice", 600%Z); ("bob", 40%Z)] -> (0 <= snd kv)%Z).
  { intros kv [<-|[<-|[]]]; simpl; lia. }
  split; [exact H|]. exact (detect_burnout_at_most_two _ H).
Defined.

(** Instance of [get_insights_round_trip]: a first request for acme/widgets on an empty cache. *)
Lemma get_insights_round_trip_witness :
  exists cache1 s,
    get_insights iso_subset world_sample 0 now_sample ∅ ["acme/widgets"] 30 = (cache1, Ok s) /\
    exists t,
      cache1 !! make_cache_key ["acme/widgets"] 30 = Some {| c_time := t; c_data := s |} /\
      (0 - t < CACHE_TTL_SECONDS)%Q /\
      (forall k, k <> make_cache_key ["acme/widgets"] 30 -> cache1 !! k = (∅ : gmap cache_key cache_entry) !! k) /\
      (forall fi' w' clock' now' repos', Permutation ["acme/widgets"] repos' ->
         (clock' - t < CACHE_TTL_SECONDS)%Q ->
         get_insights fi' w' clock' now' cache1 repos' 30 = (cache1, Ok s)).
Proof.
  destruct (get_insights iso_subset world_sample 0 now_sample ∅ ["acme/widgets"] 30)
    as [cache1 [s|ex]] eqn:E.
  - exists cache1, s. split; [done|]. exact (get_insights_round_trip _ _ _ _ _ _ _ _ _ E).
  - assert (Hok : is_ok (snd (get_insights iso_subset world_sample 0 now_sample ∅ ["acme/widgets"] 30)) = true)
      by (vm_compute; reflexivity).
    rewrite E in Hok. discriminate.
Defined.

(** Instance of [process_single_pr_fetch_errors]: a details request that raises, and a details body with null deletions. *)
Lemma process_single_pr_fetch_errors_witness :
  process_single_pr iso_subset pr_sample Transport_failure (w_reviews world_sample "acme" "widgets" 7) =
    Raise TransportError /\
  process_single_pr iso_subset pr_sample
    (Response 200 (Some {| d_additions := Val 10%Z; d_deletions := Null; d_changed_files := Val 1%Z |}))
    (w_reviews world_sample "acme" "widgets" 7) = Raise TypeError.
Proof.
  split.
  - apply (proj1 (process_single_pr_fetch_errors iso_subset pr_sample Transport_failure
                    (w_reviews world_sample "acme" "widgets" 7))). by left.
  - apply (proj2 (process_single_pr_fetch_errors iso_subset pr_sample _
                    (w_reviews world_sample "acme" "widgets" 7))
             {| d_additions := Val 10%Z; d_deletions := Null; d_changed_files := Val 1%Z |} eq_refl).
    + discriminate.
    + right. split; [discriminate|reflexivity].
Defined.

(** Instance of [calculate_reviewer_metrics_bounds]: an approving review and a review whose user has no login. *)
Lemma calculate_reviewer_metrics_bounds_witness :
  calculate_reviewer_metrics pr_sample [approved_review_sample; loginless_review_sample] =
    Ok {| reviewers_requested := 0; reviewers_commented := 2; approvals := 1 |} /\
  (0 <= reviewers_commented {| reviewers_requested := 0; reviewers_commented := 2; approvals := 1 |}
     <= Z.of_nat (length (List.filter review_has_user [approved_review_sample; loginless_review_sample])))%Z /\
  (0 <= approvals {| reviewers_requested := 0; reviewers_commented := 2; approvals := 1 |}
     <= Z.of_nat (length [approved_review_sample; loginless_review_sample]))%Z /\
  (0 <= reviewers_requested {| reviewers_requested := 0; reviewers_commented := 2; approvals := 1 |})%Z.
Proof.
  assert (H : calculate_reviewer_metrics pr_sample [approved_review_sample; loginless_review_sample] =
                Ok {| reviewers_requested := 0; reviewers_commented := 2; approvals := 1 |})
    by (vm_compute; reflexivity).
  split; [exact H|]. exact (calculate_reviewer_metrics_bounds _ _ _ H).
Defined.
